(** * TermChat: the provider adapters, the command dispatcher, the
      credential store and the chat loop, embedded and verified

    The development follows the layout of the Python sources:

    - [PyStr]       the [str] methods the program calls;
    - [Json]        JSON payloads (what [response.json()] yields and what
                    is posted), the Python operations applied to them and
                    the exceptions they raise;
    - [EnvManager]  utils/env_manager.py: the provider table, the canned
                    replies, the .env file and the process environment;
    - [Chat]        messages, HTTP exchanges, and the effects of a
                    computation that may raise;
    - [Openrouter]  utils/openrouter.py: [UniversalLLMClient];
    - [Commands]    utils/commands.py: [handle_command], [show_history];
    - [Termchat]    termchat.py: one iteration of the [while True] loop;
    - [Spec]        the vocabulary of the statements and sample inputs;
    - [TableFacts], [OpenrouterFacts], [CommandsFacts], [EnvManagerFacts],
      [TermchatFacts]: what is proved of the provider table and of each
      source file.

    A Python [str] is modelled by its UTF-8 encoding, a [string] of
    bytes (a lone surrogate by its three bytes): a character is a lead
    byte with the continuation bytes that follow it.  [len], slices and
    subscripts count characters, not bytes;
    [strip] and [split] know the white space of [str.isspace] in the whole
    of Unicode.  The libraries the program calls (requests, python-dotenv,
    rich) are modelled by what the program relies on: the network is a
    function from requests to responses, [repr] of a payload is a
    parameter, the console is a log of what is handed to it. *)

From Stdlib Require Import ZArith Ascii String DecimalString List Bool Lia.
From stdpp Require Import base option list gmap strings.

Set Warnings "-register-all".

(* ===================================================================== *)
(** * Python string methods *)
(* ===================================================================== *)

Module PyStr.

Definition newline : string := String (ascii_of_nat 10) "".

(** A byte [10xxxxxx] continues the character that a lead byte began. *)
Definition is_continuation (a : ascii) : bool :=
  let n := nat_of_ascii a in
  (128 <=? n)%nat && (n <? 192)%nat.

(** [len(s)]: the number of characters. *)
Fixpoint len (s : string) : nat :=
  match s with
  | "" => 0
  | String a s' => if is_continuation a then len s' else S (len s')
  end.

(** [s[:n]] for [n >= 0]: the first [n] characters. *)
Fixpoint slice_to (n : nat) (s : string) : string :=
  match s with
  | "" => ""
  | String a s' =>
      if is_continuation a then String a (slice_to n s')
      else match n with
           | O => ""
           | S n' => String a (slice_to n' s')
           end
  end.

(** [s[n:]] for [n >= 0]: what follows the first [n] characters. *)
Fixpoint slice_from (n : nat) (s : string) : string :=
  match s with
  | "" => ""
  | String a s' =>
      if is_continuation a then slice_from n s'
      else match n with
           | O => s
           | S n' => slice_from n' s'
           end
  end.

(** [s[i]] for [i >= 0]; [None] where Python raises IndexError. *)
Definition char_at (i : nat) (s : string) : option string :=
  match slice_to 1 (slice_from i s) with
  | "" => None
  | c => Some c
  end.

(** [str.isspace] on a 7-bit character: TAB, LF, VT, FF, CR, the four
    separators 0x1c-0x1f and the blank. *)
Definition is_space (a : ascii) : bool :=
  let n := nat_of_ascii a in
  ((9 <=? n)%nat && (n <=? 13)%nat) || ((28 <=? n)%nat && (n <=? 32)%nat).

(** The number of bytes of the white-space character that [s] begins
    with, [0] when it begins with none.  White space is what
    [str.isspace] accepts: the 7-bit characters of [is_space], U+0085
    and U+00A0 (C2 85, C2 A0), U+1680 (E1 9A 80), U+2000 to U+200A,
    U+2028, U+2029 and U+202F (E2 80 80-8A, A8, A9, AF), U+205F
    (E2 81 9F) and U+3000 (E3 80 80). *)
Definition space_len (s : string) : nat :=
  match s with
  | "" => 0
  | String a rest =>
      let n := nat_of_ascii a in
      if is_space a then 1
      else if (n =? 194)%nat then
        match rest with
        | String b _ =>
            let m := nat_of_ascii b in
            if (m =? 133)%nat || (m =? 160)%nat then 2 else 0
        | "" => 0
        end
      else if (n =? 225)%nat then
        match rest with
        | String b (String c _) =>
            if (nat_of_ascii b =? 154)%nat && (nat_of_ascii c =? 128)%nat
            then 3 else 0
        | _ => 0
        end
      else if (n =? 226)%nat then
        match rest with
        | String b (String c _) =>
            let m := nat_of_ascii b in
            let k := nat_of_ascii c in
            if ((m =? 128)%nat
                && (((128 <=? k)%nat && (k <=? 138)%nat)
                    || (k =? 168)%nat || (k =? 169)%nat || (k =? 175)%nat))
               || ((m =? 129)%nat && (k =? 159)%nat)
            then 3 else 0
        | _ => 0
        end
      else if (n =? 227)%nat then
        match rest with
        | String b (String c _) =>
            if (nat_of_ascii b =? 128)%nat && (nat_of_ascii c =? 128)%nat
            then 3 else 0
        | _ => 0
        end
      else 0
  end.

Definition lower_ascii (a : ascii) : ascii :=
  let n := nat_of_ascii a in
  if (65 <=? n)%nat && (n <=? 90)%nat then ascii_of_nat (n + 32) else a.

Definition upper_ascii (a : ascii) : ascii :=
  let n := nat_of_ascii a in
  if (97 <=? n)%nat && (n <=? 122)%nat then ascii_of_nat (n - 32) else a.

(** [s.lower()], as far as the program can tell: the 7-bit capitals
    become small letters, and so does U+212A KELVIN SIGN (E2 84 AA),
    the one character outside the 7-bit range whose lower case lies
    within it.  The other characters are left as they are; Python maps
    some of them to characters that are outside the 7-bit range too, so
    the comparisons of the program, all with 7-bit words, come out as in
    Python. *)
Fixpoint lower (s : string) : string :=
  match s with
  | "" => ""
  | String a s1 =>
      if (nat_of_ascii a =? 226)%nat then
        match s1 with
        | String b (String c rest) =>
            if (nat_of_ascii b =? 132)%nat && (nat_of_ascii c =? 170)%nat
            then String "k" (lower rest)
            else String a (lower s1)
        | _ => String a (lower s1)
        end
      else String (lower_ascii a) (lower s1)
  end.

(** [s.capitalize()]: first character upper-cased, the rest lower-cased;
    the program applies it to the role of a message, a 7-bit word in
    every transcript it builds. *)
Definition capitalize (s : string) : string :=
  match s with
  | "" => ""
  | String a s' => String (upper_ascii a) (lower s')
  end.

(** [s.lstrip()]; [skip] counts the bytes of a white-space character
    that are still to be passed over. *)
Fixpoint lstrip_from (skip : nat) (s : string) : string :=
  match s with
  | "" => ""
  | String _ s' =>
      match skip with
      | S k => lstrip_from k s'
      | O =>
          match space_len s with
          | O => s
          | S k => lstrip_from k s'
          end
      end
  end.

Definition lstrip (s : string) : string := lstrip_from 0 s.

(** [s.isspace()] or [s] empty: nothing but white space. *)
Fixpoint all_space_from (skip : nat) (s : string) : bool :=
  match s with
  | "" => true
  | String _ s' =>
      match skip with
      | S k => all_space_from k s'
      | O =>
          match space_len s with
          | O => false
          | S k => all_space_from k s'
          end
      end
  end.

(** [s.rstrip()]: [s] is cut where nothing but white space follows. *)
Fixpoint rstrip (s : string) : string :=
  match s with
  | "" => ""
  | String a s' => if all_space_from 0 s then "" else String a (rstrip s')
  end.

(** [s.strip()] *)
Definition strip (s : string) : string := rstrip (lstrip s).

(** [s.startswith(p)] *)
Definition startswith (s p : string) : bool := String.prefix p s.

(** [needle in hay] for two strings. *)
Fixpoint contains (hay needle : string) : bool :=
  String.prefix needle hay
  || match hay with
     | "" => false
     | String _ hay' => contains hay' needle
     end.

(** [s.replace(old, new)] for a non-empty [old]: occurrences are found
    left to right and do not overlap. [skip] counts the bytes of an
    occurrence that are still to be passed over. *)
Fixpoint replace_from (skip : nat) (old new s : string) : string :=
  match s with
  | "" => ""
  | String a s' =>
      match skip with
      | S k => replace_from k old new s'
      | O =>
          if String.prefix old s
          then new +:+ replace_from (String.length old - 1) old new s'
          else String a (replace_from 0 old new s')
      end
  end.

Definition replace (s old new : string) : string := replace_from 0 old new s.

(** [sep.join(parts)] *)
Definition join (sep : string) (parts : list string) : string :=
  String.concat sep parts.

(** The first word of [s.split()]: leading white space is skipped and
    the word runs up to the next white space; [None] when [s] holds no
    word, where [s.split()[0]] raises IndexError. *)
Fixpoint word (s : string) : string :=
  match s with
  | "" => ""
  | String a s' =>
      match space_len s with
      | O => String a (word s')
      | S _ => ""
      end
  end.

Definition first_word (s : string) : option string :=
  match lstrip s with
  | "" => None
  | t => Some (word t)
  end.

(** [str(n)] for a natural number. *)
Definition of_nat (n : nat) : string :=
  NilZero.string_of_uint (Nat.to_uint n).

End PyStr.

(* ===================================================================== *)
(** * JSON values and the Python operations on them *)
(* ===================================================================== *)

Module Json.

(** What [json.loads] produces and [json=] serialises: None, bool, int,
    float, str, list and dict.  A float is kept as a decimal
    [mantissa * 10^exponent]; a dict as its items in insertion order,
    its keys being pairwise different as in any Python dict. *)
Inductive json : Type :=
| JNull
| JBool (b : bool)
| JInt (n : Z)
| JFloat (mantissa exponent : Z)
| JStr (s : string)
| JList (xs : list json)
| JObj (items : list (string * json)).

(** The exceptions that can travel through the program. *)
Inductive exn : Type :=
| ConnectionError               (* requests.post did not get an answer *)
| HTTPError (status : Z)        (* response.raise_for_status() *)
| JSONDecodeError               (* response.json() on a body that is not JSON *)
| KeyError (key : json)
| IndexError
| TypeError
| AttributeError
| Exception_ (msg : string).    (* raise Exception(msg) *)

Definition lookup_item (k : string) (items : list (string * json)) : option json :=
  snd <$> List.find (fun kv => String.eqb k (fst kv)) items.

(** [d[k] = v] on a dict: the value is replaced in place, a new key goes
    last. *)
Fixpoint set_item (k : string) (v : json) (items : list (string * json))
  : list (string * json) :=
  match items with
  | [] => [(k, v)]
  | (k', v') :: rest =>
      if String.eqb k k' then (k, v) :: rest else (k', v') :: set_item k v rest
  end.

(** [d[k]] with a string subscript. *)
Definition getitem (d : json) (k : string) : exn + json :=
  match d with
  | JObj items =>
      match lookup_item k items with
      | Some v => inr v
      | None => inl (KeyError (JStr k))
      end
  | _ => inl TypeError
  end.

(** [d[i]] with a non-negative integer subscript.  The keys of a decoded
    dict are strings, so an integer is never one of them. *)
Definition getindex (d : json) (i : nat) : exn + json :=
  match d with
  | JList xs =>
      match nth_error xs i with
      | Some v => inr v
      | None => inl IndexError
      end
  | JStr s =>
      match PyStr.char_at i s with
      | Some c => inr (JStr c)
      | None => inl IndexError
      end
  | JObj _ => inl (KeyError (JInt (Z.of_nat i)))
  | _ => inl TypeError
  end.

Definition is_str (k : string) (v : json) : bool :=
  match v with
  | JStr s => String.eqb k s
  | _ => false
  end.

(** [k in d] for a string [k]: key of a dict, element of a list,
    substring of a string; the other values are not iterable. *)
Definition contains (d : json) (k : string) : exn + bool :=
  match d with
  | JObj items => inr (bool_decide (is_Some (lookup_item k items)))
  | JList xs => inr (existsb (is_str k) xs)
  | JStr s => inr (PyStr.contains s k)
  | _ => inl TypeError
  end.

(** [d.get(k, default)]: only a dict has the method. *)
Definition get (d : json) (k : string) (default : json) : exn + json :=
  match d with
  | JObj items => inr (from_option id default (lookup_item k items))
  | _ => inl AttributeError
  end.

(** Truth value of a string, as in [if system_message:]. *)
Definition truthy_str (s : string) : bool :=
  negb (String.eqb s "").

End Json.

(* ===================================================================== *)
(** * utils/env_manager.py *)
(* ===================================================================== *)

Module EnvManager.

(** One entry of [LLM_PROVIDERS]. *)
Record provider : Type := Provider {
  name : string;
  env_key : string;
  api_url : string;
  model : string
}.

Definition LLM_PROVIDERS : list (string * provider) :=
  [ ("1", Provider "Google (Gemini)" "GOOGLE_API_KEY"
            "https://generativelanguage.googleapis.com/v1beta/models/"
            "gemini-2.5-pro");
    ("2", Provider "OpenRouter" "OPENROUTER_API_KEY"
            "https://openrouter.ai/api/v1/chat/completions"
            "openai/gpt-oss-20b:free");
    ("3", Provider "OpenAI" "OPENAI_API_KEY"
            "https://api.openai.com/v1/chat/completions"
            "gpt-3.5-turbo");
    ("4", Provider "Anthropic (Claude)" "ANTHROPIC_API_KEY"
            "https://api.anthropic.com/v1/messages"
            "claude-3-sonnet-20240229");
    ("5", Provider "xAI (Grok)" "XAI_API_KEY"
            "https://api.x.ai/v1/chat/completions"
            "grok-beta");
    ("6", Provider "DeepSeek" "DEEPSEEK_API_KEY"
            "https://api.deepseek.com/v1/chat/completions"
            "deepseek-chat");
    ("7", Provider "Qwen" "QWEN_API_KEY"
            "https://dashscope.aliyuncs.com/api/v1/services/aigc/text-generation/generation"
            "qwen-turbo");
    ("8", Provider "HuggingFace" "HUGGINGFACE_API_KEY"
            "https://api-inference.huggingface.co/models/"
            "mistralai/Mistral-7B-Instruct-v0.2") ].

Definition help_reply : string :=
  PyStr.join PyStr.newline
    [ "Available Commands:";
      "• /clear - Clear chat history";
      "• /exit or /quit - Exit application";
      "• /addapi - Add new LLM provider API key";
      "• /switch - Switch between saved LLM providers";
      "• /deleteapi - Delete saved API key";
      "• /help - Show this help message";
      "";
      "Ask me anything!" ].

(** Custom replies to save tokens. *)
Definition CUSTOM_REPLIES : list (string * string) :=
  [ ("hello", "Hello! Main aapki madad ke liye taiyaar hu. Kya main aapki koi madad kar sakta hu?");
    ("hi", "Hi! Kaise madad kar sakta hu?");
    ("hey", "Hey there! Kya help chahiye?");
    ("help", help_reply);
    ("bye", "Goodbye! Phir milenge! 👋");
    ("goodbye", "Goodbye! Dhanyavaad! 👋");
    ("thanks", "Aapka swagat hai! 😊");
    ("thank you", "Koi baat nahi! Khushi hui madad karke! 😊");
    ("ok", "Theek hai! Aur kuch chahiye?");
    ("okay", "Bilkul! Aur kya help chahiye?") ].

(** [d.get(k)] on a table written as a dict literal. *)
Definition table_get {A} (k : string) (table : list (string * A)) : option A :=
  snd <$> List.find (fun kv => String.eqb k (fst kv)) table.

(** ** The .env file and the process environment

    The program keeps its configuration in two places.  python-dotenv's
    [set_key] and [unset_key] rewrite the .env FILE and nothing else;
    [os.getenv] reads the PROCESS ENVIRONMENT, which [load_dotenv]
    fills from the file: it adds or overwrites variables and never
    removes one.  The file is its [KEY=value] lines in order; a file
    that does not exist behaves as one without lines ([set_key] creates
    it, [unset_key] leaves it alone). *)
Record env : Type := Env {
  dotenv_file : list (string * string);
  environ : gmap string string
}.

Definition getenv (k : string) (st : env) : option string :=
  environ st !! k.

(** A string read from the environment counts as set when it is there
    and not empty: [if os.getenv(k):]. *)
Definition truthy (o : option string) : bool :=
  match o with
  | Some s => Json.truthy_str s
  | None => false
  end.

(** [set_key(path, k, v)]: every line of key [k] is rewritten; when
    there is none the line is added at the end. *)
Definition set_key_lines (k v : string) (lines : list (string * string))
  : list (string * string) :=
  if existsb (fun kv => String.eqb (fst kv) k) lines
  then map (fun kv => if String.eqb (fst kv) k then (k, v) else kv) lines
  else lines ++ [(k, v)].

(** [unset_key(path, k)]: every line of key [k] is left out. *)
Definition unset_key_lines (k : string) (lines : list (string * string))
  : list (string * string) :=
  List.filter (fun kv => negb (String.eqb (fst kv) k)) lines.

Definition set_key (k v : string) (st : env) : env :=
  Env (set_key_lines k v (dotenv_file st)) (environ st).

Definition unset_key (k : string) (st : env) : env :=
  Env (unset_key_lines k (dotenv_file st)) (environ st).

(** The file read as a dict: of two lines with one key the later wins.
    A line is kept as the pair of its key and of the value that
    [set_key] was given, and read back as that value.  python-dotenv
    reads back another value when the text holds a quote or a backslash
    (it writes the value between single quotes and decodes escapes) or
    a [${NAME}] reference (it expands it): the values of a file are
    taken to be free of the three characters. *)
Definition dotenv_values (lines : list (string * string)) : gmap string string :=
  fold_left (fun m kv => <[fst kv := snd kv]> m) lines ∅.

(** [load_dotenv(override=...)]: a variable that is already in the
    environment is kept unless [override]; nothing is deleted.
    [EnvManager.__init__] and [check_env_exists] name the file,
    termchat.py does not: python-dotenv then looks for a file .env next
    to the script.  The program is taken to run in the directory of
    termchat.py, where that is the file of [env_path]. *)
Definition load_dotenv (override : bool) (st : env) : env :=
  let from_file := dotenv_values (dotenv_file st) in
  Env (dotenv_file st)
      (if override then from_file ∪ environ st else environ st ∪ from_file).

(** [provider['env_key'].replace('_API_KEY', '_MODEL')] *)
Definition model_key (p : provider) : string :=
  PyStr.replace (env_key p) "_API_KEY" "_MODEL".

(** What [get_active_provider] returns: the table entry with the model
    that is to be used, and the key. *)
Record provider_config : Type := ProviderConfig {
  descriptor : provider;
  api_key : string
}.

Definition with_model (p : provider) (m : string) : provider :=
  Provider (name p) (env_key p) (api_url p) m.

Definition get_active_provider (st : env) : option provider_config :=
  match getenv "ACTIVE_PROVIDER" st with
  | None => None
  | Some active_id =>
      if negb (Json.truthy_str active_id) then None else
      match table_get active_id LLM_PROVIDERS with
      | None => None
      | Some p =>
          let p' :=
            match getenv (model_key p) st with
            | Some saved_model =>
                if Json.truthy_str saved_model then with_model p saved_model else p
            | None => p
            end in
          match getenv (env_key p) st with
          | Some key => if Json.truthy_str key then Some (ProviderConfig p' key) else None
          | None => None
          end
      end
  end.

(** [_get_saved_providers]: the providers with a key in the
    environment, numbered from 1 in table order. *)
Fixpoint saved_from (idx : nat) (table : list (string * provider)) (st : env)
  : list (string * string) :=
  match table with
  | [] => []
  | (provider_id, p) :: rest =>
      if truthy (getenv (env_key p) st)
      then (PyStr.of_nat idx, provider_id) :: saved_from (S idx) rest st
      else saved_from idx rest st
  end.

Definition _get_saved_providers (st : env) : list (string * string) :=
  saved_from 1 LLM_PROVIDERS st.

(** What the user types into the dialogs of the three commands. *)
Record answers : Type := Answers {
  choice : string;        (* the number picked from the menu *)
  overwrite : bool;       (* add: replace a key that is already saved *)
  typed_key : string;     (* add: the key *)
  typed_model : string;   (* add: the model name as Prompt.ask hands it back,
                             the line without the white space around it;
                             empty for the default *)
  make_active : bool;     (* add: switch to the provider *)
  confirm : bool          (* delete: really delete *)
}.

(** [add_api_key].  [Prompt.ask] takes only a listed number or 0, so any
    other [choice] never leaves the prompt and nothing is written. *)
Definition add_api_key (a : answers) (st : env) : env :=
  if String.eqb (choice a) "0" then st else
  match table_get (choice a) LLM_PROVIDERS with
  | None => st
  | Some p =>
      if truthy (getenv (env_key p) st) && negb (overwrite a) then st else
      if negb (Json.truthy_str (PyStr.strip (typed_key a))) then st else
      let model_name :=
        if String.eqb (typed_model a) "" then model p else typed_model a in
      if String.eqb (PyStr.lower model_name) "cancel" then st else
      let st1 := set_key (env_key p) (typed_key a) st in
      let st2 := set_key (model_key p) model_name st1 in
      if make_active a
      then set_key "ACTIVE_PROVIDER_NAME" (name p)
             (set_key "ACTIVE_PROVIDER" (choice a) st2)
      else st2
  end.

(** [switch_provider] *)
Definition switch_provider (a : answers) (st : env) : env :=
  let saved_providers := _get_saved_providers st in
  match saved_providers with
  | [] => st
  | _ =>
      if String.eqb (choice a) "0" then st else
      match table_get (choice a) saved_providers with
      | None => st
      | Some provider_id =>
          match table_get provider_id LLM_PROVIDERS with
          | None => st
          | Some p =>
              set_key "ACTIVE_PROVIDER_NAME" (name p)
                (set_key "ACTIVE_PROVIDER" provider_id st)
          end
      end
  end.

(** [delete_api_key] *)
Definition delete_api_key (a : answers) (st : env) : env :=
  let saved_providers := _get_saved_providers st in
  match saved_providers with
  | [] => st
  | _ =>
      let active_provider := getenv "ACTIVE_PROVIDER" st in
      if String.eqb (choice a) "0" then st else
      match table_get (choice a) saved_providers with
      | None => st
      | Some provider_id =>
          match table_get provider_id LLM_PROVIDERS with
          | None => st
          | Some p =>
              if negb (confirm a) then st else
              (* Delete API key *)
              let st1 := unset_key (env_key p) st in
              (* Delete model name *)
              let st2 := unset_key (model_key p) st1 in
              (* If this was the active provider, clear it *)
              if bool_decide (Some provider_id = active_provider)
              then unset_key "ACTIVE_PROVIDER_NAME" (unset_key "ACTIVE_PROVIDER" st2)
              else st2
          end
      end
  end.

(** A process that starts on the file: [EnvManager.__init__] runs
    [load_dotenv(self.env_path)] on the environment it inherits. *)
Definition start (inherited : gmap string string) (lines : list (string * string)) : env :=
  load_dotenv false (Env lines inherited).

(** [setup_first_run]: what it returns, and the store as it leaves it.
    As in [add_api_key], a [choice] that is not listed never leaves the
    prompt; the model answers False and writes nothing. *)
Definition setup_first_run (a : answers) (st : env) : bool * env :=
  if String.eqb (choice a) "0" then (false, st) else
  match table_get (choice a) LLM_PROVIDERS with
  | None => (false, st)
  | Some p =>
      if negb (Json.truthy_str (PyStr.strip (typed_key a))) then (false, st) else
      let model_name :=
        if String.eqb (typed_model a) "" then model p else typed_model a in
      if String.eqb (PyStr.lower model_name) "cancel" then (false, st) else
      (* Save API key *)
      let st := set_key (env_key p) (typed_key a) st in
      (* Save model name *)
      let st := set_key (model_key p) model_name st in
      (* Save active provider *)
      let st := set_key "ACTIVE_PROVIDER" (choice a) st in
      (* Save provider name *)
      let st := set_key "ACTIVE_PROVIDER_NAME" (name p) st in
      (true, st)
  end.

(** [EnvManager.__init__]; [file_exists] is
    [os.path.exists(self.env_path)]. *)
Definition init (file_exists : bool) (st : env) : env :=
  if file_exists then load_dotenv false st else st.

(** [check_env_exists]: the answer, and the store after the
    [load_dotenv] it runs. *)
Definition check_env_exists (file_exists : bool) (st : env) : bool * env :=
  if negb file_exists then (false, st) else
  let st := load_dotenv false st in
  (bool_decide (is_Some (get_active_provider st)), st).

End EnvManager.

(* ===================================================================== *)
(** * Messages, HTTP exchanges and observable effects *)
(* ===================================================================== *)

Module Chat.
Import Json.

(** One entry of [chat_history]: [{"role": ..., "content": ...}]. *)
Record message : Type := Message {
  role : string;
  content : string
}.

Definition message_json (m : message) : json :=
  JObj [("role", JStr (role m)); ("content", JStr (content m))].

(** [requests.post(url, headers=..., json=...)] *)
Record request : Type := Request {
  url : string;
  headers : list (string * string);
  body : json
}.

(** The answer: its status, and what [response.json()] gives when it is
    asked for (a decoded body, or the decoder's exception). *)
Record response : Type := Response {
  status_code : Z;
  decoded : exn + json
}.

(** What one can observe of an iteration from outside the process. *)
Inductive event : Type :=
| Posted (r : request)                 (* requests.post *)
| Parsed                               (* response.json() *)
| Cleared                              (* console.clear() *)
| Shown (text : string)                (* console.print of a text or panel *)
| Answered (text : string)             (* format_ai_response *)
| Failed (e : exn)                     (* console.print of "Error: " + str(e) *)
| Listed (rows : list (string * string)). (* the table of /history *)

(** Computations that may raise: the events so far, then the exception
    or the value. *)
Definition M (A : Type) : Type := (list event * (exn + A))%type.

Definition ret {A} (a : A) : M A := ([], inr a).
Definition raise {A} (e : exn) : M A := ([], inl e).
Definition tell (ev : event) : M unit := ([ev], inr tt).
Definition lift {A} (r : exn + A) : M A := ([], r).

Definition bind {A B} (m : M A) (k : A -> M B) : M B :=
  match m with
  | (t, inl e) => (t, inl e)
  | (t, inr a) => let '(t', r) := k a in (t ++ t', r)
  end.

Definition trace {A} (m : M A) : list event := fst m.
Definition outcome {A} (m : M A) : exn + A := snd m.

(** The same for pure lookups, which only raise. *)
Definition and_then {A B} (r : exn + A) (k : A -> exn + B) : exn + B :=
  match r with
  | inl e => inl e
  | inr a => k a
  end.

End Chat.

Notation "'do!' x <- m ; k" := (Chat.bind m (fun x => k))
  (at level 10, x name, m at level 100, k at level 200).
Notation "'try!' x <- r ; k" := (Chat.and_then r (fun x => k))
  (at level 10, x name, r at level 100, k at level 200).

(* ===================================================================== *)
(** * utils/openrouter.py *)
(* ===================================================================== *)

Module Openrouter.
Import Json Chat.

(** [UniversalLLMClient] after [__init__]. *)
Record client : Type := Client {
  provider_name : string;
  api_key : string;
  base_url : string;
  model : string;
  client_headers : list (string * string)
}.

Definition _setup_headers (provider_name api_key : string) : list (string * string) :=
  if PyStr.contains provider_name "OpenRouter" then
    [ ("Authorization", "Bearer " +:+ api_key);
      ("Content-Type", "application/json");
      ("HTTP-Referer", "https://github.com/termchat");
      ("X-Title", "TermChat") ]
  else if PyStr.contains provider_name "Anthropic" then
    [ ("x-api-key", api_key);
      ("Content-Type", "application/json");
      ("anthropic-version", "2023-06-01") ]
  else if PyStr.contains provider_name "HuggingFace" then
    [ ("Authorization", "Bearer " +:+ api_key);
      ("Content-Type", "application/json") ]
  else
    [ ("Authorization", "Bearer " +:+ api_key);
      ("Content-Type", "application/json") ].

Definition UniversalLLMClient (cfg : EnvManager.provider_config) : client :=
  let p := EnvManager.descriptor cfg in
  Client (EnvManager.name p) (EnvManager.api_key cfg) (EnvManager.api_url p)
         (EnvManager.model p)
         (_setup_headers (EnvManager.name p) (EnvManager.api_key cfg)).

(** ** The request of each family *)

Definition openai_request (c : client) (messages : list message) : request :=
  Request (base_url c) (client_headers c)
    (JObj [ ("model", JStr (model c));
            ("messages", JList (map message_json messages)) ]).

(** The loop of [_get_anthropic_response]: [system_message] is assigned
    at every system message, the others are appended. *)
Definition anthropic_step (acc : string * list json) (msg : message)
  : string * list json :=
  let '(system_message, user_messages) := acc in
  if String.eqb (role msg) "system"
  then (content msg, user_messages)
  else (system_message,
        user_messages ++ [JObj [("role", JStr (role msg));
                                ("content", JStr (content msg))]]).

Definition anthropic_payload (model : string) (messages : list message)
  : list (string * json) :=
  let '(system_message, user_messages) :=
    fold_left anthropic_step messages ("", []) in
  let payload :=
    [ ("model", JStr model);
      ("messages", JList user_messages);
      ("max_tokens", JInt 4096) ] in
  if truthy_str system_message
  then set_item "system" (JStr system_message) payload
  else payload.

Definition anthropic_request (c : client) (messages : list message) : request :=
  Request (base_url c) (client_headers c)
    (JObj (anthropic_payload (model c) messages)).

(** The loop of [_get_google_response]. *)
Definition google_step (contents : list json) (msg : message) : list json :=
  let role := if String.eqb (role msg) "user" then "user" else "model" in
  contents ++ [JObj [ ("role", JStr role);
                      ("parts", JList [JObj [("text", JStr (content msg))]]) ]].

Definition google_contents (messages : list message) : list json :=
  fold_left google_step messages [].

Definition google_request (c : client) (messages : list message) : request :=
  Request
    ("https://generativelanguage.googleapis.com/v1beta/models/" +:+ model c
       +:+ ":generateContent?key=" +:+ api_key c)
    [("Content-Type", "application/json")]
    (JObj [("contents", JList (google_contents messages))]).

Definition huggingface_prompt (messages : list message) : string :=
  PyStr.join PyStr.newline
    (map (fun msg => role msg +:+ ": " +:+ content msg) messages).

Definition huggingface_request (c : client) (messages : list message) : request :=
  Request (base_url c +:+ model c) (client_headers c)
    (JObj [ ("inputs", JStr (huggingface_prompt messages));
            ("parameters", JObj [ ("max_new_tokens", JInt 500);
                                  ("temperature", JFloat 7 (-1)) ]) ]).

Section Calls.

(** The network: what [requests.post] does with a request. *)
Variable http_post : request -> exn + response.

(** [repr] of a decoded value; [str] is [repr] except on a string. *)
Variable py_repr : json -> string.

Definition py_str (v : json) : string :=
  match v with
  | JStr s => s
  | _ => py_repr v
  end.

Definition post (r : request) : M response :=
  do! _ <- tell (Posted r); lift (http_post r).

(** [response.raise_for_status()]: an HTTPError for 4xx and 5xx. *)
Definition is_error_status (status : Z) : bool :=
  ((400 <=? status) && (status <? 600))%Z.

Definition raise_for_status (r : response) : M unit :=
  if is_error_status (status_code r) then raise (HTTPError (status_code r))
  else ret tt.

(** [response.json()] *)
Definition json_of (r : response) : M json :=
  do! _ <- tell Parsed; lift (decoded r).

Definition _get_openai_compatible_response (c : client) (messages : list message)
  : M json :=
  do! response <- post (openai_request c messages);
  do! _ <- raise_for_status response;
  do! data <- json_of response;
  lift (try! choices <- getitem data "choices";
        try! choice <- getindex choices 0;
        try! message <- getitem choice "message";
        getitem message "content").

Definition _get_anthropic_response (c : client) (messages : list message)
  : M json :=
  do! response <- post (anthropic_request c messages);
  do! _ <- raise_for_status response;
  do! data <- json_of response;
  lift (try! blocks <- getitem data "content";
        try! block <- getindex blocks 0;
        getitem block "text").

(** [data["candidates"][0]["content"]["parts"][0]["text"]] *)
Definition google_reply_path (data : json) : exn + json :=
  try! candidates <- getitem data "candidates";
  try! candidate <- getindex candidates 0;
  try! content <- getitem candidate "content";
  try! parts <- getitem content "parts";
  try! part <- getindex parts 0;
  getitem part "text".

(** The [try] ... [except (KeyError, IndexError)] of
    [_get_google_response]; any other exception passes through. *)
Definition google_extract (data : json) : exn + json :=
  match google_reply_path data with
  | inr text => inr text
  | inl (KeyError _) | inl IndexError =>
      try! has_error <- contains data "error";
      if (has_error : bool) then
        try! error <- getitem data "error";
        try! message <- get error "message" (JStr (py_str error));
        inl (Exception_ ("Google API Error: " +:+ py_str message))
      else
        inl (Exception_ ("Unexpected response format: " +:+ py_str data))
  | inl e => inl e
  end.

Definition _get_google_response (c : client) (messages : list message)
  : M json :=
  do! response <- post (google_request c messages);
  do! _ <- raise_for_status response;
  do! data <- json_of response;
  lift (google_extract data).

(** The end of [_get_huggingface_response]. *)
Definition huggingface_extract (data : json) : exn + json :=
  match data with
  | JList (first :: _) =>
      try! has_text <- contains first "generated_text";
      if (has_text : bool) then getitem first "generated_text"
      else inr (JStr (py_str data))
  | _ => inr (JStr (py_str data))
  end.

Definition _get_huggingface_response (c : client) (messages : list message)
  : M json :=
  do! response <- post (huggingface_request c messages);
  do! _ <- raise_for_status response;
  do! data <- json_of response;
  lift (huggingface_extract data).

Definition get_response (c : client) (messages : list message) : M json :=
  if PyStr.contains (provider_name c) "Anthropic" then
    _get_anthropic_response c messages
  else if PyStr.contains (provider_name c) "Google" then
    _get_google_response c messages
  else if PyStr.contains (provider_name c) "HuggingFace" then
    _get_huggingface_response c messages
  else
    _get_openai_compatible_response c messages.

End Calls.

(** The request that [get_response] posts for a client. *)
Definition request_of (c : client) (messages : list message) : request :=
  if PyStr.contains (provider_name c) "Anthropic" then anthropic_request c messages
  else if PyStr.contains (provider_name c) "Google" then google_request c messages
  else if PyStr.contains (provider_name c) "HuggingFace" then huggingface_request c messages
  else openai_request c messages.

End Openrouter.

(* ===================================================================== *)
(** * utils/commands.py *)
(* ===================================================================== *)

Module Commands.
Import Json Chat.

Definition JOKES : list string :=
  [ "Why do programmers prefer dark mode? Because light attracts bugs!";
    "Why did the developer go broke? Because he used up all his cache!";
    "How many programmers does it take to change a light bulb? None, that's a hardware problem!";
    "Why do programmers always confuse Halloween and Christmas? Because Oct 31 = Dec 25!";
    "A SQL query walks into a bar, walks up to two tables and asks, 'Can I join you?'";
    "What's a programmer's favorite place? The Foo Bar.";
    "Why don't programmers like nature? It has too many bugs and no debugging tool.";
    "Why do programmers hate nature? Too many bugs, not enough doc!" ].

(** What [handle_command] returns: ["exit"], ["reload"] or [None]. *)
Inductive signal : Type := Exit | Reload | Nothing.

Definition help_rows : list (string * string) :=
  [ ("/help", "Show this help message");
    ("/exit", "Exit the chatbot");
    ("/clear", "Clear the chat history and screen");
    ("/joke", "Tell a random programming joke");
    ("/history", "Show your chat history");
    ("/addapi", "Add a new LLM provider API key");
    ("/switch", "Switch active LLM provider");
    ("/deleteapi", "Delete a saved API key") ].

Definition show_help : list event := [Listed help_rows].

(** The body of the loop of [show_history]: the two texts that
    [table.add_row] is given for a message. *)
Definition history_row (message : message) : string * string :=
  let role := role message in
  let content := content message in
  (* Truncate very long messages for display *)
  let content :=
    if (100 <? PyStr.len content)%nat
    then PyStr.slice_to 97 content +:+ "..."
    else content in
  let role_style := if String.eqb role "user" then "green" else "purple" in
  ("[" +:+ role_style +:+ "]" +:+ PyStr.capitalize role
     +:+ "[/" +:+ role_style +:+ "]",
   content).

(** [show_history] reads [chat_history] and assigns to nothing but its
    own local variables.  [Listed rows] is the call of [console.print]
    on the table of these rows: the texts are the ones given to
    [table.add_row].  What rich then puts on the screen is not modelled:
    it reads a text as console markup, applies and removes the tags,
    replaces emoji codes, wraps the text to the width of the terminal,
    and raises MarkupError out of [console.print] at a closing tag that
    closes nothing.  A text without an opening bracket holds no tag. *)
Definition show_history (chat_history : list message) : list event :=
  match chat_history with
  | [] => [Shown "No chat history yet."]
  | _ => [Listed (map history_row chat_history)]
  end.

Definition no_manager : list event :=
  [Shown "Error: Environment manager not available"].

(** [handle_command]: what is printed, the answer, and the history and
    the credential store as the command leaves them.  [a] holds what is
    typed into a dialog, [pick] is the draw of [random.choice]. *)
Definition handle_command (command : string) (a : EnvManager.answers) (pick : nat)
    (chat_history : list message) (env_manager : option EnvManager.env)
  : M (signal * list message * option EnvManager.env) :=
  match PyStr.first_word command with
  | None => raise IndexError
  | Some w =>
      let cmd := PyStr.lower w in
      if String.eqb cmd "/help" then
        (show_help, inr (Nothing, chat_history, env_manager))
      else if String.eqb cmd "/exit" then
        ([Shown "Thank you for using TermChat! Goodbye!"],
         inr (Exit, chat_history, env_manager))
      else if String.eqb cmd "/clear" then
        ([Cleared], inr (Nothing, [], env_manager))
      else if String.eqb cmd "/joke" then
        ([Shown (nth (pick mod length JOKES) JOKES "")],
         inr (Nothing, chat_history, env_manager))
      else if String.eqb cmd "/history" then
        (show_history chat_history, inr (Nothing, chat_history, env_manager))
      else if String.eqb cmd "/addapi" then
        match env_manager with
        | Some st => ret (Reload, chat_history, Some (EnvManager.add_api_key a st))
        | None => (no_manager, inr (Nothing, chat_history, env_manager))
        end
      else if String.eqb cmd "/switch" then
        match env_manager with
        | Some st => ret (Reload, chat_history, Some (EnvManager.switch_provider a st))
        | None => (no_manager, inr (Nothing, chat_history, env_manager))
        end
      else if String.eqb cmd "/deleteapi" then
        match env_manager with
        | Some st => ret (Reload, chat_history, Some (EnvManager.delete_api_key a st))
        | None => (no_manager, inr (Nothing, chat_history, env_manager))
        end
      else
        ([Shown ("Unknown command: " +:+ cmd)],
         inr (Nothing, chat_history, env_manager))
  end.

End Commands.

(* ===================================================================== *)
(** * termchat.py *)
(* ===================================================================== *)

Module Termchat.
Import Json Chat.

(** The variables of [main] that live across iterations. *)
Record state : Type := State {
  client : option Openrouter.client;
  chat_history : list message;
  env_manager : EnvManager.env
}.

Inductive control : Type := Break | Continue.

Definition initialize_client (st : EnvManager.env)
  : list event * option Openrouter.client :=
  match EnvManager.get_active_provider st with
  | None => ([Shown "Error: No active provider configured!"], None)
  | Some provider_config => ([], Some (Openrouter.UniversalLLMClient provider_config))
  end.

(** [chat_history[-1]["role"] == "user"] on a list that may be empty. *)
Definition last_is_user (chat_history : list message) : bool :=
  match last chat_history with
  | Some m => String.eqb (role m) "user"
  | None => false
  end.

Section Loop.

Variable http_post : request -> exn + response.
Variable py_repr : json -> string.

(** Lines 137-155: the turn that goes to the provider.  When
    [get_response] hands back a value that is not a [str], against its
    declared [-> str], the program appends that value as the content of
    an assistant entry, [format_ai_response] raises on it, the handler
    prints the error, pops nothing and the loop goes on.  The history
    is then no list of [message]s any more, whose contents are strings
    as in the [Dict[str, str]] of the sources: the result is [None] for
    that turn, and what is proved of [ask] is proved of the turns in
    which the reply is a [str] or the call raises. *)
Definition ask (c : Openrouter.client) (user_input : string)
    (chat_history : list message) : option (list event * list message) :=
  (* Append user message to history *)
  let chat_history := chat_history ++ [Message "user" user_input] in
  (* Get response from AI *)
  match Openrouter.get_response http_post py_repr c chat_history with
  | (t, inr (JStr response)) =>
      Some (t ++ [Shown "AI Assistant"; Answered response],
            chat_history ++ [Message "assistant" response])
  | (t, inr _) => None
  | (t, inl e) =>
      (* Remove the failed user message from history *)
      Some (t ++ [Failed e],
            if last_is_user chat_history then removelast chat_history
            else chat_history)
  end.

(** One pass through the body of [while True], on the line that
    [Prompt.ask] returned. *)
Definition iteration (user_input : string) (a : EnvManager.answers) (pick : nat)
    (st : state) : option (list event * control * state) :=
  (* Check if this is a command *)
  if PyStr.startswith user_input "/" then
    match Commands.handle_command user_input a pick (chat_history st)
            (Some (env_manager st)) with
    | (t, inl _) => None   (* no word to split off: not on a line that starts with "/" *)
    | (t, inr (command_result, chat_history', env')) =>
        let env' := default (env_manager st) env' in
        match command_result with
        | Commands.Exit => Some (t, Break, State (client st) chat_history' env')
        | Commands.Reload =>
            (* Reload environment and reinitialize client *)
            let env' := EnvManager.load_dotenv true env' in
            match initialize_client env' with
            | (t', Some new_client) =>
                Some (t ++ t' ++ [Shown "Client reloaded!"], Continue,
                      State (Some new_client) chat_history' env')
            | (t', None) =>
                Some (t ++ t' ++ [Shown "Warning: No active provider configured."],
                      Continue, State (client st) chat_history' env')
            end
        | Commands.Nothing =>
            Some (t, Continue, State (client st) chat_history' env')
        end
    end
  else
    (* Check for custom replies (to save tokens) *)
    let user_input_lower := PyStr.strip (PyStr.lower user_input) in
    match EnvManager.table_get user_input_lower EnvManager.CUSTOM_REPLIES with
    | Some reply => Some ([Shown "AI Assistant"; Answered reply], Continue, st)
    | None =>
        (* Check if client is available *)
        match client st with
        | None => Some ([Shown "No active provider configured."], Continue, st)
        | Some c =>
            '(t, chat_history') ← ask c user_input (chat_history st);
            Some (t, Continue, State (client st) chat_history' (env_manager st))
        end
    end.

End Loop.

(** [main] before the loop: the environment manager, the first-run
    setup when nothing is configured, the client.  [None] is
    [sys.exit(1)]; otherwise the loop starts on the state that is
    returned, with an empty history.  The [load_dotenv()] after the
    setup is taken to find the file that the setup wrote. *)
Definition startup (file_exists : bool) (a : EnvManager.answers) (st0 : EnvManager.env)
  : list event * option state :=
  let env_manager := EnvManager.init file_exists st0 in
  let '(configured, env_manager) :=
    EnvManager.check_env_exists file_exists env_manager in
  let ready :=
    if configured then Some env_manager else
    match EnvManager.setup_first_run a env_manager with
    | (true, env_manager) =>
        (* Reload environment after setup *)
        Some (EnvManager.load_dotenv false env_manager)
    | (false, _) => None
    end in
  match ready with
  | None => ([Shown "Setup failed. Exiting..."], None)
  | Some env_manager =>
      match initialize_client env_manager with
      | (t, None) => (t, None)
      | (t, Some c) =>
          (t ++ [Cleared; Shown "TermChat"; Shown "Ready to Chat"],
           Some (State (Some c) [] env_manager))
      end
  end.

End Termchat.

(* ===================================================================== *)
(** * The vocabulary of the statements *)
(* ===================================================================== *)

Module Spec.
Import Json Chat.


Definition is_system (m : message) : bool := String.eqb (role m) "system".

(** The content of the last system message, [""] when there is none. *)
Definition last_system (messages : list message) : string :=
  from_option content "" (last (List.filter is_system messages)).

(** The messages without the system messages that another system
    message follows. *)
Fixpoint keep_last_system (messages : list message) : list message :=
  match messages with
  | [] => []
  | m :: rest =>
      if is_system m && existsb is_system rest
      then keep_last_system rest
      else m :: keep_last_system rest
  end.

(** The role translation as the specification words it for the Google
    family: "assistant" becomes "model", everything else "user". *)
Definition google_role_as_specified (r : string) : string :=
  if String.eqb r "assistant" then "model" else "user".

Definition google_entry (translate : string -> string) (m : message) : json :=
  JObj [ ("role", JStr (translate (role m)));
         ("parts", JList [JObj [("text", JStr (content m))]]) ].

(** The translation that the loop of [_get_google_response] applies. *)
Definition google_role (r : string) : string :=
  if String.eqb r "user" then "user" else "model".

(** The exceptions that [except (KeyError, IndexError)] catches. *)
Definition lookup_miss (e : exn) : bool :=
  match e with
  | KeyError _ | IndexError => true
  | _ => false
  end.

(** A stand-in for Python's [repr] to run the adapters on examples: it
    writes None, booleans and integers as Python does, and strings,
    lists and dicts as Python does when no string in them needs an
    escape; floats are written as mantissa and exponent. *)
Definition repr_Z (n : Z) : string :=
  NilZero.string_of_int (Z.to_int n).

Fixpoint sample_repr (v : json) : string :=
  match v with
  | JNull => "None"
  | JBool true => "True"
  | JBool false => "False"
  | JInt n => repr_Z n
  | JFloat m e => repr_Z m +:+ "e" +:+ repr_Z e
  | JStr s => "'" +:+ s +:+ "'"
  | JList xs => "[" +:+ PyStr.join ", " (map sample_repr xs) +:+ "]"
  | JObj items =>
      "{" +:+ PyStr.join ", "
                (map (fun kv => "'" +:+ fst kv +:+ "': " +:+ sample_repr (snd kv)) items)
          +:+ "}"
  end.

(** A network that answers every request with one response. *)
Definition always (r : response) : request -> exn + response :=
  fun _ => inr r.

(** Clients on entries of the provider table, with test keys. *)
Definition client_of (p : EnvManager.provider) (key : string) : Openrouter.client :=
  Openrouter.UniversalLLMClient (EnvManager.ProviderConfig p key).

Definition huggingface_client : Openrouter.client :=
  client_of (EnvManager.Provider "HuggingFace" "HUGGINGFACE_API_KEY"
               "https://api-inference.huggingface.co/models/"
               "mistralai/Mistral-7B-Instruct-v0.2") "hf_test".

Definition openai_client : Openrouter.client :=
  client_of (EnvManager.Provider "OpenAI" "OPENAI_API_KEY"
               "https://api.openai.com/v1/chat/completions"
               "gpt-3.5-turbo") "sk-test".

Definition google_client : Openrouter.client :=
  client_of (EnvManager.Provider "Google (Gemini)" "GOOGLE_API_KEY"
               "https://generativelanguage.googleapis.com/v1beta/models/"
               "gemini-2.5-pro") "AIza-test".

Definition anthropic_client : Openrouter.client :=
  client_of (EnvManager.Provider "Anthropic (Claude)" "ANTHROPIC_API_KEY"
               "https://api.anthropic.com/v1/messages"
               "claude-3-sonnet-20240229") "sk-ant-test".

(** [n] times the character [a]. *)
Fixpoint repeat_char (a : ascii) (n : nat) : string :=
  match n with
  | O => ""
  | S n' => String a (repeat_char a n')
  end.



(** A .env file as first-run setup writes it for Google, and the
    process started on it with nothing inherited. *)
Definition google_file : list (string * string) :=
  [ ("GOOGLE_API_KEY", "AIza-test");
    ("GOOGLE_MODEL", "gemini-2.5-pro");
    ("ACTIVE_PROVIDER", "1");
    ("ACTIVE_PROVIDER_NAME", "Google (Gemini)") ].

Definition google_env : EnvManager.env := EnvManager.start ∅ google_file.

(** The answers of a user who picks the first menu entry and says yes. *)
Definition pick_first : EnvManager.answers :=
  EnvManager.Answers "1" false "" "" false true.

(** A text without an opening bracket: rich finds no markup tag in it
    and prints it without raising MarkupError. *)
Definition plain_text (s : string) : bool := negb (PyStr.contains s "[").


(** No line of a file has the key. *)
Definition no_line (k : string) (lines : list (string * string)) : Prop :=
  Forall (fun kv => fst kv <> k) lines.

(** ** Vocabulary for the adapters *)

(** The four request and reply contracts, and the one that
    [get_response] picks for a client. *)
Inductive family : Type := Anthropic | Google | HuggingFace | OpenAICompatible.

Definition family_of (c : Openrouter.client) : family :=
  if PyStr.contains (Openrouter.provider_name c) "Anthropic" then Anthropic
  else if PyStr.contains (Openrouter.provider_name c) "Google" then Google
  else if PyStr.contains (Openrouter.provider_name c) "HuggingFace" then HuggingFace
  else OpenAICompatible.

(** Where each family expects the reply in the decoded body. *)
Definition reply_path (f : family) (data : json) : exn + json :=
  match f with
  | Anthropic =>
      try! blocks <- getitem data "content";
      try! block <- getindex blocks 0;
      getitem block "text"
  | Google => Openrouter.google_reply_path data
  | HuggingFace =>
      try! first <- getindex data 0;
      getitem first "generated_text"
  | OpenAICompatible =>
      try! choices <- getitem data "choices";
      try! choice <- getindex choices 0;
      try! message <- getitem choice "message";
      getitem message "content"
  end.

(** What each family makes of a decoded body. *)
Definition reply_of (py_repr : json -> string) (f : family) (data : json)
  : exn + json :=
  match f with
  | Google => Openrouter.google_extract py_repr data
  | HuggingFace => Openrouter.huggingface_extract py_repr data
  | _ => reply_path f data
  end.

(** One exchange seen from outside: the post, the status check, the
    decoding, and [k] on the decoded body. *)
Definition exchange (http_post : request -> exn + response) (r : request)
    (k : json -> exn + json) : M json :=
  match http_post r with
  | inl e => ([Posted r], inl e)
  | inr resp =>
      if Openrouter.is_error_status (status_code resp)
      then ([Posted r], inl (HTTPError (status_code resp)))
      else match decoded resp with
           | inl e => ([Posted r; Parsed], inl e)
           | inr data => ([Posted r; Parsed], k data)
           end
  end.

(** The request that a computation hands to [requests.post] first. *)
Definition posted {A} (m : M A) : option request :=
  match trace m with
  | Posted r :: _ => Some r
  | _ => None
  end.

(** The members of a request body that is an object. *)
Definition body_items (r : request) : list (string * json) :=
  match body r with
  | JObj items => items
  | _ => []
  end.

Definition is_post (ev : event) : bool :=
  match ev with
  | Posted _ => true
  | _ => false
  end.

(** The number of requests in a log. *)
Definition posts (t : list event) : nat := length (List.filter is_post t).

(** ** Vocabulary for the credential store *)

(** The value that the last line of key [k] gives it. *)
Fixpoint last_binding (k : string) (lines : list (string * string)) : option string :=
  match lines with
  | [] => None
  | (k', v) :: rest =>
      match last_binding k rest with
      | Some v' => Some v'
      | None => if String.eqb k' k then Some v else None
      end
  end.

(** The environment holds what the file says, as after a reload. *)
Definition synced (st : EnvManager.env) : Prop :=
  forall k v, last_binding k (EnvManager.dotenv_file st) = Some v ->
              EnvManager.getenv k st = Some v.

(** Neither the environment nor the file mentions the variable. *)
Definition unmentioned (k : string) (st : EnvManager.env) : Prop :=
  EnvManager.getenv k st = None /\ no_line k (EnvManager.dotenv_file st).

(** The model name that the add and setup dialogs save. *)
Definition saved_model (a : EnvManager.answers) (p : EnvManager.provider) : string :=
  if String.eqb (EnvManager.typed_model a) "" then EnvManager.model p
  else EnvManager.typed_model a.

(** A value that python-dotenv hands back as it was stored: it holds
    no quote and no backslash, which [set_key] and the parser escape
    and decode, and no dollar sign, with which a [${NAME}] reference
    begins. *)
Definition stored_verbatim (s : string) : bool :=
  negb (PyStr.contains s "'")
  && negb (PyStr.contains s (String (ascii_of_nat 92) ""))
  && negb (PyStr.contains s "$").

(** A model name that goes through a dialog as it is: [Prompt.ask]
    hands back the line without the white space around it, rich prints
    the name in the panel that reports success (a name without an
    opening bracket holds no markup and cannot raise MarkupError), and
    python-dotenv reads it back as it was stored. *)
Definition model_name_kept (s : string) : Prop :=
  PyStr.strip s = s /\ plain_text s = true /\ stored_verbatim s = true.

(** The four variables that the dialogs write for a provider are
    different variables. *)
Definition keys_distinct (p : EnvManager.provider) : Prop :=
  EnvManager.env_key p <> EnvManager.model_key p
  /\ EnvManager.env_key p <> "ACTIVE_PROVIDER"
  /\ EnvManager.env_key p <> "ACTIVE_PROVIDER_NAME"
  /\ EnvManager.model_key p <> "ACTIVE_PROVIDER"
  /\ EnvManager.model_key p <> "ACTIVE_PROVIDER_NAME".

(** ** Vocabulary for the loop *)

(** The command word of a line: the first word of [line.split()], in
    lower case. *)
Definition command_word (line : string) : option string :=
  PyStr.lower <$> PyStr.first_word line.

End Spec.

(* ===================================================================== *)
(** * Facts about the provider table *)
(* ===================================================================== *)

Module TableFacts.
Import EnvManager Spec.

(** An identifier that the table knows is one of its eight. *)
Lemma provider_table_cases (provider_id : string) (p : provider) :
  table_get provider_id LLM_PROVIDERS = Some p ->
  In (provider_id, p) LLM_PROVIDERS.
Proof.
  unfold table_get, LLM_PROVIDERS. cbn [List.find fst].
  repeat match goal with
         | |- context [String.eqb provider_id ?k] =>
             destruct (String.eqb_spec provider_id k) as [->|_];
             [cbn; intros [= <-]; tauto|]
         end.
  cbn. discriminate.
Qed.

Lemma provider_table_get (provider_id : string) (p : provider) :
  In (provider_id, p) LLM_PROVIDERS ->
  table_get provider_id LLM_PROVIDERS = Some p.
Proof.
  intros Hin. cbn in Hin.
  repeat (destruct Hin as [[= <- <-]|Hin]; [reflexivity|]).
  contradiction.
Qed.

(** In the table the key variable, the model variable derived from it
    and the two markers are four different variables, and every default
    model has a name. *)
Lemma provider_table_keys (provider_id : string) (p : provider) :
  table_get provider_id LLM_PROVIDERS = Some p ->
  keys_distinct p /\ model p <> "" /\ provider_id <> "".
Proof.
  intros Hin%provider_table_cases. cbn in Hin.
  repeat (destruct Hin as [[= <- <-]|Hin];
          [unfold keys_distinct; repeat split; intros H; vm_compute in H; discriminate H|]).
  contradiction.
Qed.

(** Two entries of the table with one key variable are one entry. *)
Lemma provider_table_env_keys (id1 id2 : string) (p1 p2 : provider) :
  table_get id1 LLM_PROVIDERS = Some p1 ->
  table_get id2 LLM_PROVIDERS = Some p2 ->
  env_key p1 = env_key p2 -> id1 = id2.
Proof.
  intros H1%provider_table_cases H2%provider_table_cases. cbn in H1, H2.
  repeat (destruct H1 as [[= <- <-]|H1]; [|]);
    try contradiction;
    repeat (destruct H2 as [[= <- <-]|H2]; [|]);
    try contradiction; cbn; intros H; first [reflexivity | discriminate H].
Qed.

End TableFacts.

(* ===================================================================== *)
(** * Facts about utils/openrouter.py *)
(* ===================================================================== *)

Module OpenrouterFacts.
Import Json Chat Openrouter Spec.

(** ** One exchange per call: the request that goes out *)

(** [get_response] is one exchange: the request of the client's family
    is posted, the status is checked, the body is decoded, and the
    family reads its reply from it. *)
Lemma get_response_exchange
    (http_post : request -> exn + response) (py_repr : json -> string)
    (c : client) (messages : list message) :
  get_response http_post py_repr c messages
  = exchange http_post (request_of c messages) (reply_of py_repr (family_of c)).
Proof.
  unfold get_response, request_of, family_of.
  destruct (PyStr.contains (provider_name c) "Anthropic");
    [|destruct (PyStr.contains (provider_name c) "Google");
      [|destruct (PyStr.contains (provider_name c) "HuggingFace")]];
    unfold _get_anthropic_response, _get_google_response,
      _get_huggingface_response, _get_openai_compatible_response,
      exchange, post, raise_for_status, json_of, bind, tell, lift, ret, raise;
    (destruct (http_post _) as [e|resp]; [reflexivity|]);
    (destruct (is_error_status (status_code resp)); [reflexivity|]);
    cbn; destruct (decoded resp); reflexivity.
Qed.

(** The log of a call: the post, and the decoding when it is reached. *)
Lemma get_response_trace
    (http_post : request -> exn + response) (py_repr : json -> string)
    (c : client) (messages : list message) :
  trace (get_response http_post py_repr c messages) = [Posted (request_of c messages)]
  \/ trace (get_response http_post py_repr c messages)
     = [Posted (request_of c messages); Parsed].
Proof.
  rewrite get_response_exchange. unfold exchange.
  destruct (http_post _) as [e|resp]; [cbn; auto|].
  destruct (is_error_status (status_code resp)); [cbn; auto|].
  destruct (decoded resp); cbn; auto.
Qed.

Lemma get_response_posts
    (http_post : request -> exn + response) (py_repr : json -> string)
    (c : client) (messages : list message) :
  posts (trace (get_response http_post py_repr c messages)) = 1.
Proof. by destruct (get_response_trace http_post py_repr c messages) as [->| ->]. Qed.

(** The request that goes out is the one of the client's family. *)
Lemma get_response_posted
    (http_post : request -> exn + response) (py_repr : json -> string)
    (c : client) (messages : list message) :
  posted (get_response http_post py_repr c messages) = Some (request_of c messages).
Proof.
  unfold posted.
  by destruct (get_response_trace http_post py_repr c messages) as [->| ->].
Qed.

Lemma request_of_google (c : client) (messages : list message) :
  family_of c = Google -> request_of c messages = google_request c messages.
Proof.
  unfold family_of, request_of.
  destruct (PyStr.contains (provider_name c) "Anthropic"); [discriminate|].
  destruct (PyStr.contains (provider_name c) "Google"); [reflexivity|].
  destruct (PyStr.contains (provider_name c) "HuggingFace"); discriminate.
Qed.

Lemma request_of_anthropic (c : client) (messages : list message) :
  family_of c = Anthropic -> request_of c messages = anthropic_request c messages.
Proof.
  unfold family_of, request_of.
  destruct (PyStr.contains (provider_name c) "Anthropic"); [reflexivity|].
  destruct (PyStr.contains (provider_name c) "Google"); [discriminate|].
  destruct (PyStr.contains (provider_name c) "HuggingFace"); discriminate.
Qed.

(** ** The Google family: request *)

Lemma google_fold (messages : list message) (contents : list json) :
  fold_left google_step messages contents
  = contents ++ map (google_entry google_role) messages.
Proof.
  revert contents.
  induction messages as [|msg rest IH]; intros contents; simpl.
  - by rewrite app_nil_r.
  - rewrite IH. unfold google_step, google_entry, google_role.
    by rewrite <- app_assoc.
Qed.

(** C1, as the code has it: the request that [get_response] posts for
    a client of the Google family has the body [{contents: [...]}], the
    contents being one object [{role, parts: [{text: content}]}] per
    message, in the order of the transcript, and the role is "user" for
    a "user" message and "model" for a message of any other role,
    "assistant" and "system" alike. *)
Theorem google_contents_roles
    (http_post : request -> exn + response) (py_repr : json -> string)
    (c : client) (messages : list message) :
  family_of c = Google ->
  (exists r,
      posted (get_response http_post py_repr c messages) = Some r
      /\ body r
         = JObj [("contents", JList (map (google_entry google_role) messages))])
  /\ google_role "user" = "user"
  /\ google_role "assistant" = "model"
  /\ google_role "system" = "model"
  /\ (forall r, r <> "user" -> google_role r = "model").
Proof.
  intros Hfamily. split.
  - exists (google_request c messages). split.
    + by rewrite get_response_posted, (request_of_google _ _ Hfamily).
    + cbn [google_request body]. unfold google_contents.
      by rewrite google_fold.
  - repeat split; try reflexivity.
    intros r Hr. unfold google_role.
    destruct (String.eqb_spec r "user"); [contradiction | reflexivity].
Qed.

Lemma google_contents_roles_witness :
  family_of google_client = Google
  /\ exists r,
       posted (get_response (always (Response 200 (inr JNull))) sample_repr
                 google_client
                 [ Message "user" "hi"; Message "assistant" "Hello.";
                   Message "tool" "42" ]) = Some r
       /\ body r
          = JObj [("contents", JList
              [ JObj [ ("role", JStr "user");
                       ("parts", JList [JObj [("text", JStr "hi")]]) ];
                JObj [ ("role", JStr "model");
                       ("parts", JList [JObj [("text", JStr "Hello.")]]) ];
                JObj [ ("role", JStr "model");
                       ("parts", JList [JObj [("text", JStr "42")]]) ] ])].
Proof.
  split; [reflexivity|].
  exact (proj1 (google_contents_roles (always (Response 200 (inr JNull)))
                  sample_repr google_client
                  [ Message "user" "hi"; Message "assistant" "Hello.";
                    Message "tool" "42" ] eq_refl)).
Defined.

(** C1, as it is worded, fails on a system message: the specified
    translation sends it to "user", the request that goes out says
    "model". *)
Lemma google_system_message_is_model :
  exists r,
    posted (get_response (always (Response 200 (inr JNull))) sample_repr
              google_client [Message "system" "Be brief."]) = Some r
    /\ body r
       = JObj [("contents", JList
           [ JObj [ ("role", JStr "model");
                    ("parts", JList [JObj [("text", JStr "Be brief.")]]) ] ])]
    /\ body r
       <> JObj [("contents", JList
            (map (google_entry google_role_as_specified)
               [Message "system" "Be brief."]))].
Proof.
  eexists. split; [reflexivity|]. split; [reflexivity|].
  vm_compute. intros H. discriminate H.
Qed.

(** ** The Anthropic family: request *)

Lemma last_system_cons (m : message) (rest : list message) :
  last_system (m :: rest)
  = if is_system m
    then (if existsb is_system rest then last_system rest else content m)
    else last_system rest.
Proof.
  unfold last_system. simpl.
  destruct (is_system m); [|reflexivity].
  induction rest as [|m' rest IH]; [reflexivity|].
  simpl. destruct (is_system m') eqn:Hm'; simpl.
  - destruct (List.filter is_system rest); reflexivity.
  - apply IH.
Qed.

Lemma last_system_none (messages : list message) :
  existsb is_system messages = false -> last_system messages = "".
Proof.
  induction messages as [|m rest IH]; [reflexivity|].
  simpl. intros [Hm Hrest]%orb_false_iff.
  rewrite last_system_cons, Hm. auto.
Qed.

Lemma anthropic_fold (messages : list message) (system_message : string)
    (user_messages : list json) :
  fold_left anthropic_step messages (system_message, user_messages)
  = (if existsb is_system messages then last_system messages else system_message,
     user_messages
       ++ map message_json (List.filter (fun m => negb (is_system m)) messages)).
Proof.
  revert system_message user_messages.
  induction messages as [|m rest IH]; intros system_message user_messages.
  - simpl. by rewrite app_nil_r.
  - cbn [fold_left]. unfold anthropic_step at 2.
    rewrite last_system_cons. cbn [existsb List.filter].
    change (String.eqb (role m) "system") with (is_system m).
    destruct (is_system m); cbn [negb orb]; rewrite IH.
    + by destruct (existsb is_system rest).
    + cbn [map]. by rewrite <- app_assoc.
Qed.

(** The request body in closed form. *)
Lemma anthropic_payload_eq (model : string) (messages : list message) :
  anthropic_payload model messages
  = [ ("model", JStr model);
      ("messages",
        JList (map message_json
                 (List.filter (fun m => negb (is_system m)) messages)));
      ("max_tokens", JInt 4096) ]
    ++ (if truthy_str (last_system messages)
        then [("system", JStr (last_system messages))] else []).
Proof.
  unfold anthropic_payload. rewrite anthropic_fold. cbn [app].
  assert (Hs : (if existsb is_system messages then last_system messages else "")
               = last_system messages).
  { destruct (existsb is_system messages) eqn:E; [reflexivity|].
    symmetry. by apply last_system_none. }
  rewrite Hs. by destruct (truthy_str (last_system messages)).
Qed.


Lemma system_field (model : string) (messages : list message) :
  lookup_item "system" (anthropic_payload model messages)
  = if truthy_str (last_system messages)
    then Some (JStr (last_system messages)) else None.
Proof.
  rewrite anthropic_payload_eq.
  by destruct (truthy_str (last_system messages)).
Qed.

(** The request of the Anthropic family, as [get_response] posts it. *)
Lemma anthropic_posted
    (http_post : request -> exn + response) (py_repr : json -> string)
    (c : client) (messages : list message) :
  family_of c = Anthropic ->
  posted (get_response http_post py_repr c messages)
  = Some (Request (base_url c) (client_headers c)
            (JObj (anthropic_payload (model c) messages))).
Proof.
  intros Hfamily.
  by rewrite get_response_posted, (request_of_anthropic _ _ Hfamily).
Qed.



(** *** More than one system message *)

Lemma keep_last_system_exists (messages : list message) :
  existsb is_system (keep_last_system messages) = existsb is_system messages.
Proof.
  induction messages as [|m rest IH]; [reflexivity|].
  simpl. destruct (is_system m) eqn:Hm, (existsb is_system rest) eqn:Hrest;
    simpl; rewrite ?Hm, ?IH; reflexivity.
Qed.

Lemma keep_last_system_others (messages : list message) :
  List.filter (fun m => negb (is_system m)) (keep_last_system messages)
  = List.filter (fun m => negb (is_system m)) messages.
Proof.
  induction messages as [|m rest IH]; [reflexivity|].
  simpl. destruct (is_system m) eqn:Hm, (existsb is_system rest) eqn:Hrest;
    simpl; rewrite ?Hm; simpl; rewrite ?IH; reflexivity.
Qed.

Lemma keep_last_system_last (messages : list message) :
  last_system (keep_last_system messages) = last_system messages.
Proof.
  induction messages as [|m rest IH]; [reflexivity|].
  rewrite last_system_cons. simpl.
  destruct (is_system m) eqn:Hm, (existsb is_system rest) eqn:Hrest; simpl;
    rewrite ?last_system_cons, ?Hm, ?keep_last_system_exists, ?Hrest;
    auto.
Qed.

Lemma last_system_empty (messages : list message) :
  Forall (fun m => is_system m = true -> content m = "") messages ->
  last_system messages = "".
Proof.
  induction 1 as [|m rest Hm _ IH]; [reflexivity|].
  rewrite last_system_cons.
  destruct (is_system m); [|exact IH].
  destruct (existsb is_system rest); auto.
Qed.

(** C10, as the code has it: whatever the number of system messages,
    the only system content that can reach the request that
    [get_response] posts for a client of the Anthropic family is that of
    the last system message: it is the top-level member "system" of the
    body when it is not empty, and when it is empty the body has no such
    member, also when an earlier system message had content.  The
    earlier system messages leave no trace: without them the same
    request goes out.  A transcript whose system messages are all empty
    (or that has none) gives a body without the member. *)
Theorem anthropic_last_system_only
    (http_post : request -> exn + response) (py_repr : json -> string)
    (c : client) (messages : list message) :
  family_of c = Anthropic ->
  exists r,
    posted (get_response http_post py_repr c messages) = Some r
    /\ lookup_item "system" (body_items r)
       = (if truthy_str (last_system messages)
          then Some (JStr (last_system messages)) else None)
    /\ posted (get_response http_post py_repr c (keep_last_system messages))
       = Some r
    /\ (Forall (fun m => is_system m = true -> content m = "") messages ->
        lookup_item "system" (body_items r) = None).
Proof.
  intros Hfamily. eexists.
  split; [by apply anthropic_posted|].
  cbn [body_items body].
  split; [apply system_field|]. split.
  - rewrite (anthropic_posted _ _ _ _ Hfamily). do 3 f_equal.
    rewrite !anthropic_payload_eq.
    by rewrite keep_last_system_others, keep_last_system_last.
  - intros Hempty. rewrite system_field.
    by rewrite (last_system_empty _ Hempty).
Qed.

Lemma anthropic_last_system_only_witness :
  let messages := [ Message "system" ""; Message "user" "hi";
                    Message "system" "" ] in
  family_of anthropic_client = Anthropic
  /\ Forall (fun m => is_system m = true -> content m = "") messages
  /\ exists r,
       posted (get_response (always (Response 200 (inr JNull))) sample_repr
                 anthropic_client messages) = Some r
       /\ lookup_item "system" (body_items r) = None.
Proof.
  intros messages.
  assert (Hempty : Forall (fun m => is_system m = true -> content m = "") messages).
  { subst messages.
    repeat (apply List.Forall_cons; [simpl; intros H; first [reflexivity | discriminate H]|]).
    apply List.Forall_nil. }
  split; [reflexivity|]. split; [exact Hempty|].
  destruct (anthropic_last_system_only (always (Response 200 (inr JNull)))
              sample_repr anthropic_client messages eq_refl)
    as (r & Hposted & _ & _ & Hnone).
  exists r. split; [exact Hposted | exact (Hnone Hempty)].
Defined.

(** C10, as it is worded, fails when the last of several system
    messages is empty and an earlier one is not: the transcript has a
    system message with content, and the body of the request that goes
    out has no member "system" at all instead of one that holds the
    content of the last. *)
Lemma last_system_message_empty :
  let messages := [ Message "system" "Be brief."; Message "user" "hi";
                    Message "system" "" ] in
  length (List.filter is_system messages) = 2
  /\ Exists (fun m => is_system m = true /\ content m <> "") messages
  /\ exists r,
       posted (get_response (always (Response 200 (inr JNull))) sample_repr
                 anthropic_client messages) = Some r
       /\ lookup_item "system" (body_items r) = None
       /\ lookup_item "system" (body_items r)
          <> Some (JStr (last_system messages)).
Proof.
  intros messages. split; [reflexivity|]. split.
  - apply List.Exists_cons_hd. split; [reflexivity | discriminate].
  - eexists. split; [reflexivity|]. split; [reflexivity | discriminate].
Qed.

(** ** A status that is an error *)

(** C5: whatever the family of the client, when the answer to the
    request carries a status for which [raise_for_status] raises (4xx
    or 5xx), [get_response] raises that HTTPError right after the
    post: the body is never decoded and no field of it is read. *)
Theorem error_status_raises_before_parsing
    (http_post : request -> exn + response) (py_repr : json -> string)
    (c : client) (messages : list message) (resp : response) :
  http_post (request_of c messages) = inr resp ->
  is_error_status (status_code resp) = true ->
  get_response http_post py_repr c messages
    = ([Posted (request_of c messages)], inl (HTTPError (status_code resp)))
  /\ ~ In Parsed (trace (get_response http_post py_repr c messages)).
Proof.
  intros Hpost Hstatus.
  assert (Heq : get_response http_post py_repr c messages
    = ([Posted (request_of c messages)], inl (HTTPError (status_code resp)))).
  { revert Hpost. unfold get_response, request_of.
    destruct (PyStr.contains (provider_name c) "Anthropic");
      [|destruct (PyStr.contains (provider_name c) "Google");
        [|destruct (PyStr.contains (provider_name c) "HuggingFace")]];
      intros Hpost;
      unfold _get_anthropic_response, _get_google_response,
        _get_huggingface_response, _get_openai_compatible_response,
        post, raise_for_status, bind, tell, lift;
      rewrite Hpost, Hstatus; reflexivity. }
  split; [exact Heq|].
  rewrite Heq. simpl. intros [H|[]]. discriminate H.
Qed.

Lemma error_status_raises_before_parsing_witness :
  let c := UniversalLLMClient
             (EnvManager.ProviderConfig
                (EnvManager.Provider "Anthropic (Claude)" "ANTHROPIC_API_KEY"
                   "https://api.anthropic.com/v1/messages" "claude-3-sonnet-20240229")
                "sk-test") in
  let resp := Response 500 (inr (JObj [("content", JList [JObj [("text", JStr "late")]])])) in
  outcome (get_response (always resp) sample_repr c [Message "user" "hi"])
    = inl (HTTPError 500).
Proof.
  intros c resp.
  rewrite (proj1 (error_status_raises_before_parsing (always resp) sample_repr c
                    [Message "user" "hi"] resp eq_refl eq_refl)).
  reflexivity.
Defined.

(** ** The Google family: answers without a reply *)

Lemma getitem_inr (data : json) (k : string) (v : json) :
  getitem data k = inr v ->
  exists items, data = JObj items /\ lookup_item k items = Some v.
Proof.
  destruct data as [| | | | |xs|items]; try discriminate.
  simpl. destruct (lookup_item k items) as [v'|] eqn:E; [|discriminate].
  intros [= <-]. eauto.
Qed.

(** C7 on the payload [{"candidates": null, "error": {"message":
    "quota exceeded"}}] with status 200: there is no reply at
    [candidates[0].content.parts[0].text] and the payload has an error
    object with a message, yet [get_response] raises the TypeError of
    [None[0]], which [except (KeyError, IndexError)] lets through, and
    the message of the provider is not reported.  The same error object
    in a payload without "candidates" is reported as the claim says. *)
Theorem google_null_candidates_raises
    (py_repr : json -> string) (messages : list message) :
  let reported := JObj [("message", JStr "quota exceeded")] in
  get_response
    (always (Response 200 (inr (JObj [("candidates", JNull); ("error", reported)]))))
    py_repr google_client messages
  = ([Posted (google_request google_client messages); Parsed], inl TypeError)
  /\ get_response
       (always (Response 200 (inr (JObj [("error", reported)]))))
       py_repr google_client messages
     = ([Posted (google_request google_client messages); Parsed],
        inl (Exception_ "Google API Error: quota exceeded")).
Proof. split; reflexivity. Qed.

(** ** The HuggingFace family: answers without [generated_text] *)

(** The fallback is taken when the payload is not a list, is an empty
    list, or is a list in whose first element the test
    ["generated_text" in data[0]] answers False. *)
Lemma huggingface_fallback (py_repr : json -> string) (data : json) :
  (forall first rest,
      data = JList (first :: rest) -> contains first "generated_text" = inr false) ->
  huggingface_extract py_repr data = inr (JStr (py_str py_repr data)).
Proof.
  intros Hfirst.
  destruct data as [| | | | |[|first rest]|items]; try reflexivity.
  simpl. by rewrite (Hfirst first rest eq_refl).
Qed.

(** C8 on the payload [[1]], a list whose first element is a number:
    the field is absent, the status is 200, and [get_response] raises
    the TypeError of ["generated_text" in 1] after decoding the body;
    no string is returned. *)
Theorem huggingface_number_first_raises
    (py_repr : json -> string) (messages : list message) :
  get_response (always (Response 200 (inr (JList [JInt 1])))) py_repr
    huggingface_client messages
  = ([Posted (huggingface_request huggingface_client messages); Parsed],
     inl TypeError).
Proof. reflexivity. Qed.

(** ** One exchange per call *)

(** X1: whatever the client, the transcript, the network and the
    payload, a call of [get_response] posts exactly one request, the one
    of the client's family, before anything else, and decodes a body at
    most once. *)
Theorem one_request_per_call
    (http_post : request -> exn + response) (py_repr : json -> string)
    (c : client) (messages : list message) :
  let t := trace (get_response http_post py_repr c messages) in
  posts t = 1
  /\ (t = [Posted (request_of c messages)]
      \/ t = [Posted (request_of c messages); Parsed]).
Proof.
  split; [apply get_response_posts | apply get_response_trace].
Qed.

(** X2: a failure of the transport or of the decoder is not handled by
    any family: when [requests.post] raises, [get_response] raises the
    same exception without reading a response, and when the status is
    no error and [response.json()] raises, it raises that exception. *)
Theorem transport_and_decoder_failures_pass
    (http_post : request -> exn + response) (py_repr : json -> string)
    (c : client) (messages : list message) (e : exn) :
  (http_post (request_of c messages) = inl e ->
   get_response http_post py_repr c messages
     = ([Posted (request_of c messages)], inl e))
  /\ (forall resp,
        http_post (request_of c messages) = inr resp ->
        is_error_status (status_code resp) = false ->
        decoded resp = inl e ->
        get_response http_post py_repr c messages
          = ([Posted (request_of c messages); Parsed], inl e)).
Proof.
  rewrite get_response_exchange. unfold exchange. split.
  - by intros ->.
  - intros resp -> -> ->. reflexivity.
Qed.

Lemma transport_and_decoder_failures_pass_witness :
  get_response (fun _ => inl ConnectionError) sample_repr openai_client
    [Message "user" "hi"]
    = ([Posted (request_of openai_client [Message "user" "hi"])], inl ConnectionError)
  /\ outcome (get_response (always (Response 200 (inl JSONDecodeError))) sample_repr
                huggingface_client [Message "user" "hi"])
     = inl JSONDecodeError.
Proof.
  split.
  - exact (proj1 (transport_and_decoder_failures_pass (fun _ => inl ConnectionError)
             sample_repr openai_client [Message "user" "hi"] ConnectionError) eq_refl).
  - rewrite (proj2 (transport_and_decoder_failures_pass
               (always (Response 200 (inl JSONDecodeError))) sample_repr
               huggingface_client [Message "user" "hi"] JSONDecodeError)
               (Response 200 (inl JSONDecodeError)) eq_refl eq_refl eq_refl).
    reflexivity.
Defined.

(** ** Replies *)

Lemma getindex_head (data first : json) :
  getindex data 0 = inr first ->
  (exists rest, data = JList (first :: rest))
  \/ (exists s c, data = JStr s /\ first = JStr c).
Proof.
  destruct data as [| | | |s|xs|items]; try discriminate.
  - cbn. destruct (PyStr.char_at 0 s) as [c|]; [|discriminate].
    intros [= <-]. right. eauto.
  - destruct xs as [|x rest]; [discriminate|]. cbn. intros [= <-]. left. eauto.
Qed.

Lemma reply_path_reply_of (py_repr : json -> string) (f : family)
    (data v : json) :
  reply_path f data = inr v -> reply_of py_repr f data = inr v.
Proof.
  destruct f; try (intros H; exact H).
  - cbn [reply_path reply_of]. unfold google_extract. by intros ->.
  - cbn [reply_path reply_of]. unfold and_then.
    destruct (getindex data 0) as [e|first] eqn:Hfirst; [discriminate|].
    intros Htext.
    destruct (getitem_inr _ _ _ Htext) as (items & -> & Hitems).
    destruct (getindex_head _ _ Hfirst) as [[rest ->]|(a & s & _ & Habs)];
      [|discriminate Habs].
    cbn. rewrite Hitems. reflexivity.
Qed.

(** X3: in every family, when the status is no error and the decoded
    body holds a value at the reply path of the family
    ([choices[0].message.content], [content[0].text],
    [candidates[0].content.parts[0].text], [[0].generated_text]),
    [get_response] returns that value, whatever else the body holds. *)
Theorem reply_is_returned
    (http_post : request -> exn + response) (py_repr : json -> string)
    (c : client) (messages : list message) (resp : response) (data v : json) :
  http_post (request_of c messages) = inr resp ->
  is_error_status (status_code resp) = false ->
  decoded resp = inr data ->
  reply_path (family_of c) data = inr v ->
  get_response http_post py_repr c messages
    = ([Posted (request_of c messages); Parsed], inr v).
Proof.
  intros Hpost Hstatus Hdata Hpath.
  rewrite get_response_exchange. unfold exchange.
  rewrite Hpost, Hstatus, Hdata.
  by rewrite (reply_path_reply_of py_repr _ _ _ Hpath).
Qed.

Lemma reply_is_returned_witness :
  let data := JObj [ ("error", JObj [("message", JStr "ignored")]);
                     ("choices", JList [JObj [("message",
                        JObj [("role", JStr "assistant"); ("content", JStr "4")])]]) ] in
  outcome (get_response (always (Response 200 (inr data))) sample_repr openai_client
             [Message "user" "What is 2 + 2?"])
  = inr (JStr "4").
Proof.
  intros data.
  rewrite (reply_is_returned (always (Response 200 (inr data))) sample_repr
             openai_client [Message "user" "What is 2 + 2?"]
             (Response 200 (inr data)) data (JStr "4")
             eq_refl eq_refl eq_refl eq_refl).
  reflexivity.
Defined.

(** X4: the OpenAI-compatible and the Anthropic family have no
    fallback: when the lookup of the reply path raises, [get_response]
    raises that exception. *)
Theorem shape_mismatch_is_fatal
    (http_post : request -> exn + response) (py_repr : json -> string)
    (c : client) (messages : list message) (resp : response) (data : json)
    (e : exn) :
  family_of c = OpenAICompatible \/ family_of c = Anthropic ->
  http_post (request_of c messages) = inr resp ->
  is_error_status (status_code resp) = false ->
  decoded resp = inr data ->
  reply_path (family_of c) data = inl e ->
  get_response http_post py_repr c messages
    = ([Posted (request_of c messages); Parsed], inl e).
Proof.
  intros Hfamily Hpost Hstatus Hdata Hpath.
  rewrite get_response_exchange. unfold exchange.
  rewrite Hpost, Hstatus, Hdata.
  destruct Hfamily as [Hf|Hf]; rewrite Hf in *; cbn [reply_of]; by rewrite Hpath.
Qed.

Lemma shape_mismatch_is_fatal_witness :
  outcome (get_response (always (Response 200 (inr (JObj [("choices", JList [])]))))
             sample_repr openai_client [Message "user" "hi"])
  = inl IndexError.
Proof.
  rewrite (shape_mismatch_is_fatal
             (always (Response 200 (inr (JObj [("choices", JList [])]))))
             sample_repr openai_client [Message "user" "hi"]
             (Response 200 (inr (JObj [("choices", JList [])])))
             (JObj [("choices", JList [])]) IndexError
             (or_introl eq_refl) eq_refl eq_refl eq_refl eq_refl).
  reflexivity.
Defined.

(** ** The failures of the Google family *)

Lemma getitem_error (d : json) (k : string) (e : exn) :
  getitem d k = inl e -> e = TypeError \/ lookup_miss e = true.
Proof.
  destruct d as [| | | | | |items]; cbn; try (intros [= <-]; by left).
  destruct (lookup_item k items); [discriminate|]. intros [= <-]. by right.
Qed.

Lemma getindex_error (d : json) (i : nat) (e : exn) :
  getindex d i = inl e -> e = TypeError \/ lookup_miss e = true.
Proof.
  destruct d as [| | | |s|xs|items]; cbn; try (intros [= <-]; by left).
  - destruct (PyStr.char_at i s); [discriminate|]. intros [= <-]. by right.
  - destruct (nth_error xs i); [discriminate|]. intros [= <-]. by right.
  - intros [= <-]. by right.
Qed.

Lemma google_reply_path_error (data : json) (e : exn) :
  google_reply_path data = inl e -> e = TypeError \/ lookup_miss e = true.
Proof.
  unfold google_reply_path, and_then.
  repeat match goal with
         | |- context [match getitem ?d ?k with _ => _ end] =>
             let H := fresh "H" in
             destruct (getitem d k) eqn:H;
             [intros [= <-]; by eapply getitem_error|]
         | |- context [match getindex ?d ?i with _ => _ end] =>
             let H := fresh "H" in
             destruct (getindex d i) eqn:H;
             [intros [= <-]; by eapply getindex_error|]
         end.
  apply getitem_error.
Qed.

Lemma google_reply_path_miss (data : json) (e : exn) :
  google_reply_path data = inl e -> lookup_miss e = true ->
  exists items, data = JObj items.
Proof.
  destruct data as [| | | | | |items]; cbn;
    try (intros [= <-] Hmiss; discriminate Hmiss).
  eauto.
Qed.

(** X5: a KeyError or IndexError never leaves the extraction of
    [_get_google_response].  When the extraction raises, the exception
    is the TypeError of a lookup in a value of the wrong kind, the
    AttributeError of an "error" member that is no object, or one of
    the two exceptions of the handler: "Google API Error: ..." or
    "Unexpected response format: ..." with the payload written out. *)
Theorem google_failure_kinds
    (py_repr : json -> string) (data : json) (e : exn) :
  google_extract py_repr data = inl e ->
  lookup_miss e = false
  /\ (e = TypeError \/ e = AttributeError
      \/ (exists reported, e = Exception_ ("Google API Error: " +:+ reported))
      \/ e = Exception_ ("Unexpected response format: " +:+ py_str py_repr data)).
Proof.
  unfold google_extract.
  destruct (google_reply_path data) as [e0|text] eqn:Hpath; [|discriminate].
  destruct (google_reply_path_error _ _ Hpath) as [->|Hmiss].
  - intros [= <-]. split; [reflexivity | by left].
  - destruct (google_reply_path_miss _ _ Hpath Hmiss) as [items ->].
    assert (Hhandler :
      (try! has_error <- contains (JObj items) "error";
       if (has_error : bool) then
         try! error <- getitem (JObj items) "error";
         try! message <- get error "message" (JStr (py_str py_repr error));
         inl (Exception_ ("Google API Error: " +:+ py_str py_repr message))
       else
         inl (Exception_ ("Unexpected response format: "
                          +:+ py_str py_repr (JObj items))) : exn + json) = inl e ->
      lookup_miss e = false
      /\ (e = TypeError \/ e = AttributeError
          \/ (exists reported, e = Exception_ ("Google API Error: " +:+ reported))
          \/ e = Exception_ ("Unexpected response format: "
                             +:+ py_str py_repr (JObj items)))).
    { cbn. destruct (lookup_item "error" items) as [error|]; cbn.
      - destruct error; cbn; intros [= <-]; split; try reflexivity; eauto 6.
      - intros [= <-]. split; [reflexivity|]. auto. }
    destruct e0; first [discriminate Hmiss | exact Hhandler].
Qed.

Lemma google_failure_kinds_witness :
  lookup_miss (Exception_ "Unexpected response format: {'candidates': []}") = false.
Proof.
  exact (proj1 (google_failure_kinds sample_repr (JObj [("candidates", JList [])])
                  (Exception_ "Unexpected response format: {'candidates': []}")
                  eq_refl)).
Defined.

(** ** The HuggingFace family on lists of objects *)

(** X6: when the payload is no list, is an empty list, or is a list
    whose first element is an object, the HuggingFace extraction does
    not raise: it returns the "generated_text" of the first element
    when it has one, and the payload written out by [str] otherwise. *)
Theorem huggingface_object_first
    (py_repr : json -> string) (data : json) :
  (forall first rest, data = JList (first :: rest) -> exists items, first = JObj items) ->
  huggingface_extract py_repr data
  = inr (match reply_path HuggingFace data with
         | inr text => text
         | inl _ => JStr (py_str py_repr data)
         end).
Proof.
  intros Hfirst.
  destruct data as [| | | |s|[|first rest]|items]; try reflexivity.
  - cbn. by destruct (PyStr.char_at 0 s).
  - destruct (Hfirst first rest eq_refl) as [items ->].
    cbn. by destruct (lookup_item "generated_text" items).
Qed.

Lemma huggingface_object_first_witness :
  huggingface_extract sample_repr (JList [JObj [("generated_text", JStr "Hi!")]])
    = inr (JStr "Hi!")
  /\ huggingface_extract sample_repr (JObj [("error", JStr "loading")])
    = inr (JStr "{'error': 'loading'}").
Proof.
  split.
  - apply (huggingface_object_first sample_repr
             (JList [JObj [("generated_text", JStr "Hi!")]])).
    intros first rest [= <- _]. eauto.
  - apply (huggingface_object_first sample_repr (JObj [("error", JStr "loading")])).
    intros first rest H. discriminate H.
Defined.

(** ** Where the key travels *)

(** X7: for every provider of the table, with any key and any model
    name, the request goes out as follows.  Google (entry 1): to the
    generateContent address of the model, the key in the query string
    and no header but Content-Type.  Anthropic (entry 4): to the address
    of the table, the key in the header x-api-key and no Authorization
    header.  HuggingFace (entry 8): to the address of the table followed
    by the model, the key as a bearer token.  Every other entry: to the
    address of the table, the key as a bearer token. *)
Theorem table_request_credentials
    (provider_id : string) (p : EnvManager.provider) (model_name key : string)
    (messages : list message) :
  EnvManager.table_get provider_id EnvManager.LLM_PROVIDERS = Some p ->
  let c := client_of (EnvManager.with_model p model_name) key in
  let r := request_of c messages in
  match family_of c with
  | Google =>
      provider_id = "1"
      /\ url r = "https://generativelanguage.googleapis.com/v1beta/models/"
                 +:+ model_name +:+ ":generateContent?key=" +:+ key
      /\ headers r = [("Content-Type", "application/json")]
  | Anthropic =>
      provider_id = "4"
      /\ url r = EnvManager.api_url p
      /\ EnvManager.table_get "x-api-key" (headers r) = Some key
      /\ EnvManager.table_get "Authorization" (headers r) = None
  | HuggingFace =>
      provider_id = "8"
      /\ url r = EnvManager.api_url p +:+ model_name
      /\ EnvManager.table_get "Authorization" (headers r) = Some ("Bearer " +:+ key)
      /\ EnvManager.table_get "x-api-key" (headers r) = None
  | OpenAICompatible =>
      In provider_id ["2"; "3"; "5"; "6"; "7"]
      /\ url r = EnvManager.api_url p
      /\ EnvManager.table_get "Authorization" (headers r) = Some ("Bearer " +:+ key)
      /\ EnvManager.table_get "x-api-key" (headers r) = None
  end.
Proof.
  intros Hin%TableFacts.provider_table_cases c r. subst r c. cbn in Hin.
  repeat (destruct Hin as [[= <- <-]|Hin];
          [vm_compute; repeat split; auto 8|]).
  contradiction.
Qed.

Lemma table_request_credentials_witness :
  let r := request_of (client_of (EnvManager.Provider "Anthropic (Claude)"
                                    "ANTHROPIC_API_KEY"
                                    "https://api.anthropic.com/v1/messages"
                                    "claude-3-haiku") "sk-ant-test")
             [Message "user" "hi"] in
  EnvManager.table_get "x-api-key" (headers r) = Some "sk-ant-test"
  /\ EnvManager.table_get "Authorization" (headers r) = None.
Proof.
  intros r.
  pose proof (table_request_credentials "4"
                (EnvManager.Provider "Anthropic (Claude)" "ANTHROPIC_API_KEY"
                   "https://api.anthropic.com/v1/messages" "claude-3-sonnet-20240229")
                "claude-3-haiku" "sk-ant-test" [Message "user" "hi"] eq_refl)
    as (_ & _ & Hkey & Hauth).
  split; [exact Hkey | exact Hauth].
Defined.

End OpenrouterFacts.

(* ===================================================================== *)
(** * Facts about utils/commands.py *)
(* ===================================================================== *)

Module CommandsFacts.
Import Json Chat Commands Spec.

(** ** Characters *)

Lemma len_slice_to (n : nat) (s : string) :
  PyStr.len (PyStr.slice_to n s) = Nat.min n (PyStr.len s).
Proof.
  revert n. induction s as [|a s IH]; intros n; [by destruct n|].
  cbn [PyStr.len PyStr.slice_to].
  destruct (PyStr.is_continuation a) eqn:Ha.
  - cbn [PyStr.len]. rewrite Ha. apply IH.
  - destruct n as [|n]; [reflexivity|].
    cbn [PyStr.len]. rewrite Ha, IH. reflexivity.
Qed.

Lemma app_cons (a : ascii) (s t : string) :
  String a s +:+ t = String a (s +:+ t).
Proof. reflexivity. Qed.

Lemma len_app (s t : string) :
  PyStr.len (s +:+ t) = PyStr.len s + PyStr.len t.
Proof.
  induction s as [|a s IH]; [reflexivity|].
  rewrite app_cons. cbn [PyStr.len]. rewrite IH.
  by destruct (PyStr.is_continuation a).
Qed.

(** A prefix counted in characters is the same prefix of a longer text. *)
Lemma slice_to_app (n : nat) (s t : string) :
  n <= PyStr.len s ->
  PyStr.slice_to 0 t = "" ->
  PyStr.slice_to n (PyStr.slice_to n s +:+ t) = PyStr.slice_to n s.
Proof.
  intros Hlen Ht. revert n Hlen.
  induction s as [|a s IH]; intros n Hlen.
  - cbn [PyStr.len] in Hlen. assert (n = 0) as -> by lia. exact Ht.
  - cbn [PyStr.len] in Hlen. cbn [PyStr.slice_to].
    destruct (PyStr.is_continuation a) eqn:Ha.
    + rewrite app_cons. cbn [PyStr.slice_to]. rewrite Ha. by rewrite IH.
    + destruct n as [|n]; [exact Ht|].
      rewrite app_cons. cbn [PyStr.slice_to]. rewrite Ha. rewrite IH by lia.
      reflexivity.
Qed.

(** ** The rows of [/history] *)

(** The text of the message cell of a long message. *)
Lemma history_row_long (msg : message) :
  100 < PyStr.len (content msg) ->
  snd (history_row msg) = PyStr.slice_to 97 (content msg) +:+ "..."
  /\ PyStr.len (PyStr.slice_to 97 (content msg)) = 97
  /\ PyStr.len (snd (history_row msg)) = 100.
Proof.
  intros Hlong. unfold history_row. cbn [snd].
  destruct (Nat.ltb_spec 100 (PyStr.len (content msg))) as [_|Hle]; [|lia].
  split; [reflexivity|].
  rewrite len_app, len_slice_to.
  change (PyStr.len "...") with 3. lia.
Qed.

Lemma history_row_short (msg : message) :
  PyStr.len (content msg) <= 100 ->
  snd (history_row msg) = content msg.
Proof.
  intros Hshort. unfold history_row. cbn [snd].
  destruct (Nat.ltb_spec 100 (PyStr.len (content msg))) as [Hlt|_]; [lia|].
  reflexivity.
Qed.





Lemma history_row_cell (msg : message) :
  PyStr.len (snd (history_row msg)) <= 100
  /\ PyStr.slice_to 97 (snd (history_row msg)) = PyStr.slice_to 97 (content msg)
  /\ (PyStr.len (content msg) <= 100 -> snd (history_row msg) = content msg)
  /\ (100 < PyStr.len (content msg) ->
      snd (history_row msg) = PyStr.slice_to 97 (content msg) +:+ "...").
Proof.
  destruct (Nat.le_gt_cases (PyStr.len (content msg)) 100) as [Hshort|Hlong].
  - rewrite (history_row_short msg Hshort).
    split; [exact Hshort|]. split; [reflexivity|]. split; [reflexivity | lia].
  - destruct (history_row_long msg Hlong) as (Hshown & _ & Hlen).
    split; [lia|]. split; [|split; [lia | intros _; exact Hshown]].
    rewrite Hshown. apply slice_to_app; [lia | reflexivity].
Qed.

(** X8: [show_history] hands to the console a table with one row per
    stored message, in the order of the history.  The text of the
    message cell never has more than 100 characters, it agrees with the
    stored content on the first 97 characters, it is the whole content
    when that has at most 100 characters, and the first 97 characters
    followed by three dots otherwise. *)
Theorem history_rows_bounded
    (chat_history : list message) (i : nat) (msg : message) :
  chat_history !! i = Some msg ->
  exists rows cell shown,
    show_history chat_history = [Listed rows]
    /\ length rows = length chat_history
    /\ rows !! i = Some (cell, shown)
    /\ PyStr.len shown <= 100
    /\ PyStr.slice_to 97 shown = PyStr.slice_to 97 (content msg)
    /\ (PyStr.len (content msg) <= 100 -> shown = content msg)
    /\ (100 < PyStr.len (content msg) ->
        shown = PyStr.slice_to 97 (content msg) +:+ "...").
Proof.
  intros Hmsg.
  exists (map history_row chat_history),
         (fst (history_row msg)), (snd (history_row msg)).
  destruct (history_row_cell msg) as (Hlen & Hprefix & Hshort & Hlong).
  split; [|split; [|split; [|split; [|split; [|split]]]]]; auto.
  - destruct chat_history; [discriminate Hmsg | reflexivity].
  - apply length_map.
  - rewrite list_lookup_fmap, Hmsg.
    change (history_row <$> Some msg) with (Some (history_row msg)).
    by rewrite <- surjective_pairing.
Qed.

Lemma history_rows_bounded_witness :
  let reply := String "h" (repeat_char "e" 100) in
  exists rows cell shown,
    show_history [Message "user" "hi"; Message "assistant" reply] = [Listed rows]
    /\ length rows = 2
    /\ rows !! 1 = Some (cell, shown)
    /\ PyStr.len shown <= 100
    /\ shown = String "h" (repeat_char "e" 96) +:+ "...".
Proof.
  intros reply.
  destruct (history_rows_bounded
              [Message "user" "hi"; Message "assistant" reply]
              1 (Message "assistant" reply) eq_refl)
    as (rows & cell & shown & Hshow & Hrows & Hrow & Hlen & _ & _ & Hlong).
  exists rows, cell, shown.
  split; [exact Hshow|]. split; [exact Hrows|]. split; [exact Hrow|].
  split; [exact Hlen|]. apply Hlong. vm_compute. lia.
Defined.

(** ** What a command does *)

Set Warnings "-clear-no-such-hyp".

(** The effects of a command, for the proofs about the loop. *)
Lemma handle_command_effects
    (command : string) (a : EnvManager.answers) (pick : nat)
    (chat_history : list message) (st : EnvManager.env)
    (t : list event) (answer : signal) (left_history : list message)
    (left_env : option EnvManager.env) :
  handle_command command a pick chat_history (Some st)
    = (t, inr (answer, left_history, left_env)) ->
  (answer = Exit <-> command_word command = Some "/exit")
  /\ (answer = Reload <->
      command_word command = Some "/addapi"
      \/ command_word command = Some "/switch"
      \/ command_word command = Some "/deleteapi")
  /\ left_history
     = (if bool_decide (command_word command = Some "/clear") then [] else chat_history)
  /\ (answer <> Reload -> left_env = Some st)
  /\ posts t = 0.
Proof.
  unfold handle_command, command_word.
  destruct (PyStr.first_word command) as [w|]; [|discriminate].
  cbn [fmap option_fmap option_map].
  assert (Hhistory : posts (show_history chat_history) = 0)
    by (by destruct chat_history).
  repeat match goal with
         | |- context [String.eqb (PyStr.lower w) ?k] =>
             destruct (String.eqb_spec (PyStr.lower w) k) as [Hcmd|?]
         end;
    intros Hrun; injection Hrun as <- <- <- <-; try rewrite Hcmd;
    (split; [naive_solver|]); (split; [naive_solver|]);
    (split; [case_bool_decide; naive_solver|]);
    (split; [naive_solver|]);
    first [reflexivity | exact Hhistory].
Qed.

(** X9: what [handle_command] does is decided by the first word of the
    line, in lower case: two lines with the same word, whatever their
    case and whatever follows the word, do the same.  It answers "exit" exactly for [/exit] and
    "reload" exactly for [/addapi], [/switch] and [/deleteapi]; it
    empties the history exactly for [/clear] and otherwise leaves it as
    it is; it leaves the credential store alone unless it answers
    "reload"; and it never posts a request. *)
Theorem command_effects
    (command : string) (a : EnvManager.answers) (pick : nat)
    (chat_history : list message) (st : EnvManager.env)
    (t : list event) (answer : signal) (left_history : list message)
    (left_env : option EnvManager.env) :
  handle_command command a pick chat_history (Some st)
    = (t, inr (answer, left_history, left_env)) ->
  (forall other,
      command_word other = command_word command ->
      handle_command other a pick chat_history (Some st)
        = (t, inr (answer, left_history, left_env)))
  /\ (answer = Exit <-> command_word command = Some "/exit")
  /\ (answer = Reload <->
      command_word command = Some "/addapi"
      \/ command_word command = Some "/switch"
      \/ command_word command = Some "/deleteapi")
  /\ left_history
     = (if bool_decide (command_word command = Some "/clear") then [] else chat_history)
  /\ (answer <> Reload -> left_env = Some st)
  /\ posts t = 0.
Proof.
  intros Hrun. split; [|exact (handle_command_effects _ _ _ _ _ _ _ _ _ Hrun)].
  intros other Hword. rewrite <- Hrun.
  unfold command_word in Hword. unfold handle_command.
  destruct (PyStr.first_word other) as [w'|], (PyStr.first_word command) as [w|];
    try discriminate Hword; [|reflexivity].
  cbn in Hword. injection Hword as Hword. by rewrite Hword.
Qed.

Lemma command_effects_witness :
  let nbsp := String (ascii_of_nat 194) (String (ascii_of_nat 160) "") in
  command_word "/EXIT now" = Some "/exit"
  /\ handle_command ("/exit" +:+ nbsp +:+ "please") pick_first 0 [] (Some google_env)
     = ([Shown "Thank you for using TermChat! Goodbye!"],
        inr (Exit, [], Some google_env)).
Proof.
  intros nbsp.
  pose proof (command_effects "/EXIT now" pick_first 0 [] google_env
                [Shown "Thank you for using TermChat! Goodbye!"] Exit []
                (Some google_env) eq_refl) as (Hsame & Hexit & _).
  split; [exact (proj1 Hexit eq_refl)|].
  exact (Hsame ("/exit" +:+ nbsp +:+ "please") eq_refl).
Defined.

End CommandsFacts.

(* ===================================================================== *)
(** * Facts about utils/env_manager.py *)
(* ===================================================================== *)

Module EnvManagerFacts.
Import EnvManager Spec.

(** ** What the dialogs change, and what they leave alone *)

Lemma delete_api_key_environ (a : answers) (st : env) :
  environ (delete_api_key a st) = environ st.
Proof.
  unfold delete_api_key.
  repeat (match goal with
          | |- context [match ?x with _ => _ end] => destruct x
          end; try reflexivity).
Qed.

Lemma get_active_provider_environ (st st' : env) :
  environ st = environ st' -> get_active_provider st = get_active_provider st'.
Proof.
  intros Heq. unfold get_active_provider, getenv. by rewrite Heq.
Qed.

(** Deleting a key never changes what [get_active_provider] answers in
    the process that deletes it. *)
Lemma delete_api_key_active (a : answers) (st : env) :
  get_active_provider (delete_api_key a st) = get_active_provider st.
Proof.
  apply get_active_provider_environ, delete_api_key_environ.
Qed.

Lemma unset_key_lines_gone (k : string) (lines : list (string * string)) :
  no_line k (unset_key_lines k lines).
Proof.
  apply List.Forall_forall. intros kv [_ Hkv]%filter_In Heq.
  rewrite Heq, String.eqb_refl in Hkv. discriminate Hkv.
Qed.

Lemma unset_key_lines_stays_gone (k k' : string) (lines : list (string * string)) :
  no_line k lines -> no_line k (unset_key_lines k' lines).
Proof.
  unfold no_line. rewrite !List.Forall_forall.
  intros Hno kv [Hin _]%filter_In. by apply Hno.
Qed.

Lemma dotenv_values_from (k : string) (lines : list (string * string))
    (m : gmap string string) :
  no_line k lines ->
  fold_left (fun m kv => <[fst kv := snd kv]> m) lines m !! k = m !! k.
Proof.
  intros Hno. revert m.
  induction Hno as [|kv lines Hkv _ IH]; intros m; [reflexivity|].
  simpl. rewrite IH. by apply lookup_insert_ne.
Qed.

Lemma dotenv_values_none (k : string) (lines : list (string * string)) :
  no_line k lines -> dotenv_values lines !! k = None.
Proof.
  intros Hno. unfold dotenv_values. by rewrite dotenv_values_from.
Qed.

(** [load_dotenv] leaves a variable alone that the file does not name. *)
Lemma load_dotenv_keeps (override : bool) (k : string) (st : env) :
  no_line k (dotenv_file st) ->
  getenv k (load_dotenv override st) = getenv k st.
Proof.
  intros Hno. unfold getenv, load_dotenv. cbn [environ].
  pose proof (dotenv_values_none k _ Hno) as Hnone.
  destruct override.
  - by rewrite lookup_union_r.
  - rewrite lookup_union. rewrite Hnone. by destruct (environ st !! k).
Qed.

(** In the file the deletion is complete: when the provider that is
    deleted is the active one, no line of its key, of its model and of the two
    markers is left in the .env file. *)
Lemma delete_active_clears_file (a : answers) (st : env)
    (provider_id : string) (p : provider) :
  choice a <> "0" ->
  table_get (choice a) (_get_saved_providers st) = Some provider_id ->
  table_get provider_id LLM_PROVIDERS = Some p ->
  confirm a = true ->
  getenv "ACTIVE_PROVIDER" st = Some provider_id ->
  let lines := dotenv_file (delete_api_key a st) in
  no_line "ACTIVE_PROVIDER" lines /\ no_line "ACTIVE_PROVIDER_NAME" lines
  /\ no_line (env_key p) lines /\ no_line (model_key p) lines.
Proof.
  intros Hchoice Hsaved Hp Hconfirm Hactive lines. subst lines.
  unfold delete_api_key.
  destruct (_get_saved_providers st) as [|entry saved] eqn:Hlist;
    [discriminate Hsaved|].
  apply String.eqb_neq in Hchoice. rewrite Hchoice, Hsaved, Hp, Hconfirm, Hactive.
  cbn [negb]. rewrite bool_decide_eq_true_2 by reflexivity.
  cbn [unset_key dotenv_file].
  repeat split;
    repeat first [ apply unset_key_lines_gone | apply unset_key_lines_stays_gone ].
Qed.

(** In the process that deleted it the provider goes on being the
    active one, with its key, also after the reload of the main loop
    ([load_dotenv(override=True)]); only a process that starts on the
    file afterwards, with none of the variables inherited, has no
    active provider. *)
Lemma deleted_provider_survives (a : answers) (st : env)
    (provider_id : string) (p : provider) :
  choice a <> "0" ->
  table_get (choice a) (_get_saved_providers st) = Some provider_id ->
  table_get provider_id LLM_PROVIDERS = Some p ->
  confirm a = true ->
  getenv "ACTIVE_PROVIDER" st = Some provider_id ->
  let st' := delete_api_key a st in
  get_active_provider (load_dotenv true st') = get_active_provider st
  /\ get_active_provider (start ∅ (dotenv_file st')) = None.
Proof.
  intros Hchoice Hsaved Hp Hconfirm Hactive st'.
  destruct (delete_active_clears_file a st provider_id p)
    as (Hno_active & _ & Hno_key & Hno_model); auto.
  fold st' in Hno_active, Hno_key, Hno_model.
  split.
  - unfold get_active_provider.
    rewrite !load_dotenv_keeps by assumption.
    assert (Henv : forall k, getenv k st' = getenv k st).
    { intros k. unfold getenv, st'. by rewrite delete_api_key_environ. }
    rewrite !Henv, Hactive, Hp.
    rewrite !load_dotenv_keeps by assumption.
    by rewrite !Henv.
  - unfold get_active_provider, start.
    rewrite load_dotenv_keeps by assumption.
    unfold getenv. cbn [environ]. by rewrite lookup_empty.
Qed.

(** C6 on a process whose active provider is Google: after the user
    deletes it (first menu entry, confirmed) the .env file is empty,
    markers included, and [get_active_provider] still answers with the
    Google configuration and its key, before and after the reload. *)
Theorem delete_active_provider_stays_active :
  let st' := delete_api_key pick_first google_env in
  getenv "ACTIVE_PROVIDER" google_env = Some "1"
  /\ dotenv_file st' = []
  /\ get_active_provider st'
     = Some (ProviderConfig
               (Provider "Google (Gemini)" "GOOGLE_API_KEY"
                  "https://generativelanguage.googleapis.com/v1beta/models/"
                  "gemini-2.5-pro")
               "AIza-test")
  /\ get_active_provider (load_dotenv true st') = get_active_provider st'
  /\ get_active_provider st' <> None.
Proof.
  intros st'. subst st'.
  split; [by vm_compute|]. split; [by vm_compute|].
  split; [by vm_compute|]. split; [by vm_compute|].
  rewrite delete_api_key_active. by vm_compute.
Qed.

(** ** Reading the file *)

Lemma last_binding_fold (k : string) (lines : list (string * string))
    (m : gmap string string) :
  fold_left (fun m kv => <[fst kv := snd kv]> m) lines m !! k
  = match last_binding k lines with
    | Some v => Some v
    | None => m !! k
    end.
Proof.
  revert m. induction lines as [|[k' v] rest IH]; intros m; [reflexivity|].
  cbn [fold_left last_binding fst snd]. rewrite IH.
  destruct (last_binding k rest); [reflexivity|].
  destruct (String.eqb_spec k' k) as [->|Hne].
  - apply lookup_insert_eq.
  - by apply lookup_insert_ne.
Qed.

Lemma dotenv_values_lookup (k : string) (lines : list (string * string)) :
  dotenv_values lines !! k = last_binding k lines.
Proof.
  unfold dotenv_values. rewrite last_binding_fold, lookup_empty.
  by destruct (last_binding k lines).
Qed.

Lemma last_binding_app (k : string) (l1 l2 : list (string * string)) :
  last_binding k (l1 ++ l2)
  = match last_binding k l2 with
    | Some v => Some v
    | None => last_binding k l1
    end.
Proof.
  induction l1 as [|[k' v] l1 IH]; cbn [app last_binding].
  - by destruct (last_binding k l2).
  - rewrite IH. by destruct (last_binding k l2).
Qed.

Lemma last_binding_no_line (k : string) (lines : list (string * string)) :
  no_line k lines -> last_binding k lines = None.
Proof.
  intros Hno. rewrite <- dotenv_values_lookup. by apply dotenv_values_none.
Qed.

Lemma existsb_no_line (k : string) (lines : list (string * string)) :
  existsb (fun kv => String.eqb (fst kv) k) lines = false -> no_line k lines.
Proof.
  induction lines as [|[k' v] rest IH]; cbn; [constructor|].
  intros [Hk Hrest]%orb_false_iff. constructor; [|by apply IH].
  by apply String.eqb_neq.
Qed.

Lemma last_binding_replaced (j k v : string) (lines : list (string * string)) :
  last_binding j
    (map (fun kv => if String.eqb (fst kv) k then (k, v) else kv) lines)
  = if String.eqb j k
    then (if existsb (fun kv => String.eqb (fst kv) k) lines then Some v else None)
    else last_binding j lines.
Proof.
  induction lines as [|[k' v'] rest IH]; cbn [map existsb fst].
  - cbn. by destruct (String.eqb j k).
  - destruct (String.eqb_spec k' k) as [->|Hk']; cbn [last_binding orb];
      rewrite IH; destruct (String.eqb_spec j k) as [->|Hjk].
    + rewrite String.eqb_refl.
      by destruct (existsb (fun kv => String.eqb (fst kv) k) rest).
    + by rewrite (proj2 (String.eqb_neq k j)) by congruence.
    + rewrite (proj2 (String.eqb_neq k' k) Hk').
      by destruct (existsb (fun kv => String.eqb (fst kv) k) rest).
    + reflexivity.
Qed.

(** After [set_key] the file gives the variable its new value and
    every other variable the value it had. *)
Lemma last_binding_set (j k v : string) (lines : list (string * string)) :
  last_binding j (set_key_lines k v lines)
  = if String.eqb j k then Some v else last_binding j lines.
Proof.
  unfold set_key_lines.
  destruct (existsb (fun kv => String.eqb (fst kv) k) lines) eqn:Hexists.
  - by rewrite last_binding_replaced, Hexists.
  - rewrite last_binding_app. cbn [last_binding].
    destruct (String.eqb_spec j k) as [->|Hjk].
    + by rewrite String.eqb_refl.
    + by rewrite (proj2 (String.eqb_neq k j)) by congruence.
Qed.

(** After [unset_key] the file gives the variable no value and every
    other variable the value it had. *)
Lemma last_binding_unset (j k : string) (lines : list (string * string)) :
  last_binding j (unset_key_lines k lines)
  = if String.eqb j k then None else last_binding j lines.
Proof.
  destruct (String.eqb_spec j k) as [->|Hjk].
  - apply last_binding_no_line, unset_key_lines_gone.
  - induction lines as [|[k' v'] rest IH]; [reflexivity|].
    cbn [unset_key_lines List.filter fst last_binding].
    destruct (String.eqb_spec k' k) as [->|Hk']; cbn [negb last_binding].
    + fold (unset_key_lines k rest). rewrite IH.
      rewrite (proj2 (String.eqb_neq k j)) by congruence.
      by destruct (last_binding j rest).
    + fold (unset_key_lines k rest). by rewrite IH.
Qed.

(** What [os.getenv] answers after [load_dotenv]: with [override] the
    file goes first, without it the environment. *)
Lemma getenv_load (override : bool) (k : string) (st : env) :
  getenv k (load_dotenv override st)
  = if override
    then match last_binding k (dotenv_file st) with
         | Some v => Some v
         | None => getenv k st
         end
    else match getenv k st with
         | Some v => Some v
         | None => last_binding k (dotenv_file st)
         end.
Proof.
  unfold getenv, load_dotenv. cbn [environ dotenv_file].
  destruct override; rewrite lookup_union, dotenv_values_lookup;
    by destruct (last_binding k (dotenv_file st)), (environ st !! k).
Qed.

Lemma getenv_reload_set (j k v : string) (st : env) :
  getenv j (load_dotenv true (set_key k v st))
  = if String.eqb j k then Some v else getenv j (load_dotenv true st).
Proof.
  rewrite !getenv_load. cbn [set_key dotenv_file].
  rewrite last_binding_set. unfold getenv. cbn [environ].
  by destruct (String.eqb j k).
Qed.

(** A reload leaves the environment in step with the file; so does the
    start of a process that inherits nothing. *)
Lemma reload_synced (st : env) : synced (load_dotenv true st).
Proof.
  intros k v Hk. rewrite getenv_load.
  cbn [load_dotenv dotenv_file] in Hk. by rewrite Hk.
Qed.

Lemma start_synced (lines : list (string * string)) : synced (start ∅ lines).
Proof.
  intros k v Hk. unfold start. rewrite getenv_load.
  unfold getenv. cbn [environ dotenv_file load_dotenv] in *.
  by rewrite lookup_empty.
Qed.

(** ** The menu of saved providers *)

(** X10: the menu of [/switch] and [/deleteapi] numbers the providers
    1, 2, 3, ... without a gap, and lists, in the order of the table,
    exactly the providers whose key variable is set and not empty in
    the environment. *)
Theorem saved_providers_listing (st : env) :
  let saved := _get_saved_providers st in
  map fst saved = map PyStr.of_nat (seq 1 (length saved))
  /\ map snd saved
     = map fst (List.filter
                  (fun entry => truthy (getenv (env_key (snd entry)) st))
                  LLM_PROVIDERS).
Proof.
  cbv zeta. unfold _get_saved_providers. generalize 1 as idx.
  induction LLM_PROVIDERS as [|[provider_id p] rest IH]; intros idx; [by split|].
  cbn [saved_from List.filter snd].
  destruct (truthy (getenv (env_key p) st)); [|apply IH].
  destruct (IH (S idx)) as [Hnumbers Hids].
  cbn [map length seq fst snd]. by rewrite Hnumbers, Hids.
Qed.

Lemma table_get_In {A} (k : string) (v : A) (table : list (string * A)) :
  table_get k table = Some v -> In (k, v) table.
Proof.
  unfold table_get.
  destruct (List.find _ table) as [[k' v']|] eqn:Hfind; [|discriminate].
  cbn. intros [= <-].
  apply find_some in Hfind as [Hin Heq]. cbn in Heq.
  apply String.eqb_eq in Heq. by subst.
Qed.

Lemma saved_from_sound (idx : nat) (table : list (string * provider)) (st : env)
    (number provider_id : string) :
  In (number, provider_id) (saved_from idx table st) ->
  exists p, In (provider_id, p) table /\ truthy (getenv (env_key p) st) = true.
Proof.
  revert idx. induction table as [|[id' p'] rest IH]; intros idx; [contradiction|].
  cbn [saved_from].
  destruct (truthy (getenv (env_key p') st)) eqn:Hset.
  - intros [[= _ <-]|Hin].
    + exists p'. split; [by left | exact Hset].
    + destruct (IH _ Hin) as (p & Hp & Hkey). exists p. split; [by right | exact Hkey].
  - intros Hin. destruct (IH _ Hin) as (p & Hp & Hkey).
    exists p. split; [by right | exact Hkey].
Qed.

(** What the menu lists is in the table and has a key. *)
Lemma saved_providers_sound (st : env) (number provider_id : string) :
  table_get number (_get_saved_providers st) = Some provider_id ->
  exists p, table_get provider_id LLM_PROVIDERS = Some p
            /\ truthy (getenv (env_key p) st) = true.
Proof.
  intros Hin%table_get_In.
  destruct (saved_from_sound _ _ _ _ _ Hin) as (p & Hp & Hkey).
  exists p. split; [by apply TableFacts.provider_table_get | exact Hkey].
Qed.

Lemma truthy_Some (o : option string) :
  truthy o = true -> exists s, o = Some s /\ s <> "".
Proof.
  destruct o as [s|]; [|discriminate]. cbn. unfold Json.truthy_str.
  intros H%negb_true_iff%String.eqb_neq. eauto.
Qed.

(** ** The configuration that is handed out *)

(** X11: a configuration that [get_active_provider] returns is usable:
    it belongs to the provider of the table that the marker
    ACTIVE_PROVIDER names, with the name, key variable and address of
    the table; its key is the value of the key variable and is not
    empty; its model is the saved model when one is saved and not
    empty, the default of the table otherwise, and is never empty. *)
Theorem active_provider_is_usable (st : env) (cfg : provider_config) :
  get_active_provider st = Some cfg ->
  exists provider_id p,
    getenv "ACTIVE_PROVIDER" st = Some provider_id
    /\ table_get provider_id LLM_PROVIDERS = Some p
    /\ name (descriptor cfg) = name p
    /\ env_key (descriptor cfg) = env_key p
    /\ api_url (descriptor cfg) = api_url p
    /\ getenv (env_key p) st = Some (api_key cfg)
    /\ api_key cfg <> ""
    /\ model (descriptor cfg)
       = (if truthy (getenv (model_key p) st)
          then default "" (getenv (model_key p) st) else model p)
    /\ model (descriptor cfg) <> "".
Proof.
  unfold get_active_provider.
  destruct (getenv "ACTIVE_PROVIDER" st) as [provider_id|]; [|discriminate].
  destruct (Json.truthy_str provider_id); [|discriminate]. cbn [negb].
  destruct (table_get provider_id LLM_PROVIDERS) as [p|] eqn:Hp; [|discriminate].
  destruct (getenv (env_key p) st) as [key|] eqn:Hkey; [|discriminate].
  destruct (Json.truthy_str key) eqn:Hset; [|discriminate].
  intros [= <-]. exists provider_id, p.
  destruct (TableFacts.provider_table_keys _ _ Hp) as (_ & Hdefault & _).
  assert (Hkey_ne : key <> "").
  { unfold Json.truthy_str in Hset. by apply negb_true_iff, String.eqb_neq in Hset. }
  cbn [descriptor api_key].
  destruct (getenv (model_key p) st) as [saved|]; cbn [truthy default];
    [destruct (Json.truthy_str saved) eqn:Hsaved|]; cbn; repeat split; auto.
  unfold Json.truthy_str in Hsaved. by apply negb_true_iff, String.eqb_neq in Hsaved.
Qed.

Lemma active_provider_is_usable_witness :
  exists provider_id p,
    getenv "ACTIVE_PROVIDER" google_env = Some provider_id
    /\ table_get provider_id LLM_PROVIDERS = Some p
    /\ getenv (env_key p) google_env = Some "AIza-test".
Proof.
  destruct (active_provider_is_usable google_env
              (ProviderConfig
                 (Provider "Google (Gemini)" "GOOGLE_API_KEY"
                    "https://generativelanguage.googleapis.com/v1beta/models/"
                    "gemini-2.5-pro") "AIza-test"))
    as (provider_id & p & Hactive & Hp & _ & _ & _ & Hkey & _).
  - by vm_compute.
  - exists provider_id, p. auto.
Defined.

(** ** What the dialogs do not do *)

Ltac case_dialog :=
  repeat (match goal with
          | |- context [match ?x with _ => _ end] => destruct x
          end; try reflexivity).

Lemma add_api_key_environ (a : answers) (st : env) :
  environ (add_api_key a st) = environ st.
Proof. unfold add_api_key. case_dialog. Qed.

Lemma switch_provider_environ (a : answers) (st : env) :
  environ (switch_provider a st) = environ st.
Proof. unfold switch_provider. case_dialog. Qed.

Lemma setup_first_run_environ (a : answers) (st : env) :
  environ (snd (setup_first_run a st)) = environ st.
Proof. unfold setup_first_run. case_dialog. Qed.

Lemma saved_providers_environ (st st' : env) :
  environ st = environ st' -> _get_saved_providers st = _get_saved_providers st'.
Proof.
  intros Heq. unfold _get_saved_providers. generalize 1.
  induction LLM_PROVIDERS as [|[provider_id p] rest IH]; intros idx; [reflexivity|].
  cbn [saved_from]. unfold getenv. rewrite Heq.
  destruct (truthy (environ st' !! env_key p)); by rewrite IH.
Qed.

(** X12: none of the dialogs (first-run setup, add, switch, delete)
    changes the process environment.  Until the environment is loaded
    again, [get_active_provider] and the menu of saved providers answer
    after a dialog what they answered before it. *)
Theorem dialogs_leave_the_process_alone (a : answers) (st : env) :
  Forall (fun st' => environ st' = environ st
                     /\ get_active_provider st' = get_active_provider st
                     /\ _get_saved_providers st' = _get_saved_providers st)
    [ snd (setup_first_run a st); add_api_key a st;
      switch_provider a st; delete_api_key a st ].
Proof.
  repeat (apply List.Forall_cons;
          [match goal with
           | |- environ ?st' = _ /\ _ =>
               assert (Henv : environ st' = environ st)
                 by first [ apply setup_first_run_environ | apply add_api_key_environ
                          | apply switch_provider_environ | apply delete_api_key_environ ];
               split; [exact Henv|];
               split; [by apply get_active_provider_environ
                      | by apply saved_providers_environ]
           end|]).
  apply List.Forall_nil.
Qed.

(** X13: a dialog that the user leaves writes nothing: with the answer
    0 at the menu every dialog returns the store as it is (and the setup
    answers False); so do the add dialog and the setup on a key that is
    blank or on the model name "cancel" in any case, the add dialog when
    the user declines to overwrite a saved key, and the delete dialog
    when the user does not confirm. *)
Theorem cancelled_dialogs_write_nothing (a : answers) (st : env) :
  (choice a = "0" ->
   setup_first_run a st = (false, st) /\ add_api_key a st = st
   /\ switch_provider a st = st /\ delete_api_key a st = st)
  /\ (PyStr.strip (typed_key a) = "" ->
      setup_first_run a st = (false, st) /\ add_api_key a st = st)
  /\ (PyStr.lower (typed_model a) = "cancel" ->
      setup_first_run a st = (false, st) /\ add_api_key a st = st)
  /\ (forall p, table_get (choice a) LLM_PROVIDERS = Some p ->
      truthy (getenv (env_key p) st) = true -> overwrite a = false ->
      add_api_key a st = st)
  /\ (confirm a = false -> delete_api_key a st = st).
Proof.
  assert (Htyped : PyStr.lower (typed_model a) = "cancel" ->
                   String.eqb (typed_model a) "" = false).
  { intros H. apply String.eqb_neq. intros Hempty.
    rewrite Hempty in H. discriminate H. }
  split; [|split; [|split; [|split]]].
  - intros H. repeat split.
    + unfold setup_first_run. by rewrite H.
    + unfold add_api_key. by rewrite H.
    + unfold switch_provider. rewrite H. by destruct (_get_saved_providers st).
    + unfold delete_api_key. rewrite H. by destruct (_get_saved_providers st).
  - intros H. unfold setup_first_run, add_api_key. rewrite H. cbn.
    split; case_dialog.
  - intros H. unfold setup_first_run, add_api_key.
    rewrite (Htyped H), H. cbn. split; case_dialog.
  - intros p Hp Hset Hover. unfold add_api_key. rewrite Hp, Hset, Hover. cbn.
    by destruct (String.eqb (choice a) "0").
  - intros H. unfold delete_api_key. rewrite H. cbn. case_dialog.
Qed.

Lemma cancelled_dialogs_write_nothing_witness :
  add_api_key (Answers "3" true "   " "" true true) google_env = google_env
  /\ add_api_key (Answers "3" true "sk-test" "Cancel" true true) google_env = google_env
  /\ delete_api_key (Answers "1" false "" "" false false) google_env = google_env.
Proof.
  split; [|split].
  - exact (proj2 (proj1 (proj2 (cancelled_dialogs_write_nothing
             (Answers "3" true "   " "" true true) google_env)) eq_refl)).
  - exact (proj2 (proj1 (proj2 (proj2 (cancelled_dialogs_write_nothing
             (Answers "3" true "sk-test" "Cancel" true true) google_env))) eq_refl)).
  - exact (proj2 (proj2 (proj2 (proj2 (cancelled_dialogs_write_nothing
             (Answers "1" false "" "" false false) google_env)))) eq_refl).
Defined.

(** ** Round trips through the file *)

Lemma table_get_zero : table_get "0" LLM_PROVIDERS = None.
Proof. reflexivity. Qed.

Lemma truthy_str_true (s : string) : s <> "" -> Json.truthy_str s = true.
Proof.
  intros Hne. unfold Json.truthy_str. by apply negb_true_iff, String.eqb_neq.
Qed.

(** The add dialog carried through: what it writes. *)
Lemma add_api_key_writes (a : answers) (st : env) (p : provider) :
  table_get (choice a) LLM_PROVIDERS = Some p ->
  (truthy (getenv (env_key p) st) = true -> overwrite a = true) ->
  PyStr.strip (typed_key a) <> "" ->
  PyStr.lower (saved_model a p) <> "cancel" ->
  add_api_key a st
  = let st2 := set_key (model_key p) (saved_model a p)
                 (set_key (env_key p) (typed_key a) st) in
    if make_active a
    then set_key "ACTIVE_PROVIDER_NAME" (name p)
           (set_key "ACTIVE_PROVIDER" (choice a) st2)
    else st2.
Proof.
  intros Hp Hover Hkey Hcancel. unfold add_api_key.
  destruct (String.eqb_spec (choice a) "0") as [Hzero|_].
  { rewrite Hzero, table_get_zero in Hp. discriminate Hp. }
  rewrite Hp.
  assert (Hask : truthy (getenv (env_key p) st) && negb (overwrite a) = false).
  { destruct (truthy (getenv (env_key p) st)); [|reflexivity].
    by rewrite (Hover eq_refl). }
  rewrite Hask, (truthy_str_true _ Hkey). cbn [negb].
  fold (saved_model a p).
  by rewrite (proj2 (String.eqb_neq _ _) Hcancel).
Qed.

(** The reload after an add dialog that made the provider active. *)
Lemma add_then_reload (a : answers) (st : env) (p : provider) :
  table_get (choice a) LLM_PROVIDERS = Some p ->
  (truthy (getenv (env_key p) st) = true -> overwrite a = true) ->
  PyStr.strip (typed_key a) <> "" ->
  PyStr.lower (saved_model a p) <> "cancel" ->
  make_active a = true ->
  get_active_provider (load_dotenv true (add_api_key a st))
  = Some (ProviderConfig (with_model p (saved_model a p)) (typed_key a)).
Proof.
  intros Hp Hover Hkey Hcancel Hactive.
  rewrite (add_api_key_writes a st p Hp Hover Hkey Hcancel), Hactive. cbv zeta.
  destruct (TableFacts.provider_table_keys _ _ Hp)
    as ((Hkm & Hka & Hkn & Hma & Hmn) & Hdefault & Hid).
  assert (Hmodel : saved_model a p <> "").
  { unfold saved_model. by destruct (String.eqb_spec (typed_model a) ""). }
  assert (Htyped : typed_key a <> "").
  { intros Hempty. rewrite Hempty in Hkey. by apply Hkey. }
  unfold get_active_provider.
  rewrite !getenv_reload_set.
  change (String.eqb "ACTIVE_PROVIDER" "ACTIVE_PROVIDER_NAME") with false.
  change (String.eqb "ACTIVE_PROVIDER" "ACTIVE_PROVIDER") with true.
  cbv beta iota. rewrite (truthy_str_true _ Hid). cbn [negb]. rewrite Hp.
  cbv beta iota. rewrite !getenv_reload_set.
  rewrite !String.eqb_refl,
    (proj2 (String.eqb_neq _ _) Hkn), (proj2 (String.eqb_neq _ _) Hka),
    (proj2 (String.eqb_neq _ _) Hkm),
    (proj2 (String.eqb_neq _ _) Hmn), (proj2 (String.eqb_neq _ _) Hma).
  cbv beta iota.
  by rewrite (truthy_str_true _ Htyped), (truthy_str_true _ Hmodel).
Qed.

(** X14: an add dialog that is carried through (a provider of the
    table, a key that is not blank, a model name other than "cancel",
    an existing key overwritten only with consent) and in which the user
    makes the provider the active one takes effect at the reload of the
    main loop: [get_active_provider] then returns that provider with
    exactly the key that was typed and the model that was typed, or the
    default of the table when none was typed.  This is said of a key
    that python-dotenv reads back as it was stored and of a model name
    that goes through the dialog as it is ([model_name_kept]): a model
    name with markup that rich rejects ends the dialog before it asks
    whether to make the provider active, and a value with a quote, a
    backslash or a [${NAME}] reference is read back as another value. *)
Theorem add_and_activate_round_trip (a : answers) (st : env) (p : provider) :
  table_get (choice a) LLM_PROVIDERS = Some p ->
  (truthy (getenv (env_key p) st) = true -> overwrite a = true) ->
  PyStr.strip (typed_key a) <> "" ->
  stored_verbatim (typed_key a) = true ->
  PyStr.lower (saved_model a p) <> "cancel" ->
  model_name_kept (saved_model a p) ->
  make_active a = true ->
  get_active_provider (load_dotenv true (add_api_key a st))
  = Some (ProviderConfig (with_model p (saved_model a p)) (typed_key a)).
Proof.
  intros Hp Hover Hkey _ Hcancel _ Hactive. by apply add_then_reload.
Qed.

Lemma add_and_activate_round_trip_witness :
  get_active_provider
    (load_dotenv true
       (add_api_key (Answers "4" false " sk-ant-test " "claude-3-haiku" true false)
          google_env))
  = Some (ProviderConfig
            (Provider "Anthropic (Claude)" "ANTHROPIC_API_KEY"
               "https://api.anthropic.com/v1/messages" "claude-3-haiku")
            " sk-ant-test ").
Proof.
  refine (add_and_activate_round_trip
            (Answers "4" false " sk-ant-test " "claude-3-haiku" true false) google_env
            (Provider "Anthropic (Claude)" "ANTHROPIC_API_KEY"
               "https://api.anthropic.com/v1/messages" "claude-3-sonnet-20240229")
            eq_refl _ _ eq_refl _ _ eq_refl).
  - intros H. vm_compute in H. discriminate H.
  - intros H. vm_compute in H. discriminate H.
  - intros H. vm_compute in H. discriminate H.
  - split; [reflexivity|]. split; reflexivity.
Defined.

(** X15: when the environment is in step with the file (as it is after
    a reload), switching to an entry of the menu takes effect at the
    next reload: [get_active_provider] then returns the provider of
    that entry, with the key that the environment held for it. *)
Theorem switch_round_trip (a : answers) (st : env) (provider_id : string) :
  synced st ->
  choice a <> "0" ->
  table_get (choice a) (_get_saved_providers st) = Some provider_id ->
  exists p cfg,
    table_get provider_id LLM_PROVIDERS = Some p
    /\ get_active_provider (load_dotenv true (switch_provider a st)) = Some cfg
    /\ name (descriptor cfg) = name p
    /\ getenv (env_key p) st = Some (api_key cfg).
Proof.
  intros Hsync Hchoice Hsaved.
  destruct (saved_providers_sound _ _ _ Hsaved) as (p & Hp & Hset).
  destruct (truthy_Some _ Hset) as (key & Hkey & Hkey_ne).
  destruct (TableFacts.provider_table_keys _ _ Hp)
    as ((Hkm & Hka & Hkn & Hma & Hmn) & Hdefault & Hid).
  assert (Hswitch : switch_provider a st
    = set_key "ACTIVE_PROVIDER_NAME" (name p) (set_key "ACTIVE_PROVIDER" provider_id st)).
  { unfold switch_provider.
    destruct (_get_saved_providers st); [discriminate Hsaved|].
    by rewrite (proj2 (String.eqb_neq _ _) Hchoice), Hsaved, Hp. }
  assert (Hkeep : forall k, getenv k (load_dotenv true st) = getenv k st).
  { intros k. rewrite getenv_load.
    destruct (last_binding k (dotenv_file st)) eqn:Hk; [|reflexivity].
    symmetry. by apply Hsync. }
  exists p.
  eexists. split; [exact Hp|]. split.
  - unfold get_active_provider. rewrite Hswitch.
    rewrite !getenv_reload_set.
    change (String.eqb "ACTIVE_PROVIDER" "ACTIVE_PROVIDER_NAME") with false.
    change (String.eqb "ACTIVE_PROVIDER" "ACTIVE_PROVIDER") with true.
    cbv beta iota. rewrite (truthy_str_true _ Hid). cbn [negb]. rewrite Hp.
    cbv beta iota. rewrite !getenv_reload_set.
    rewrite (proj2 (String.eqb_neq _ _) Hmn), (proj2 (String.eqb_neq _ _) Hma),
      (proj2 (String.eqb_neq _ _) Hkn), (proj2 (String.eqb_neq _ _) Hka).
    rewrite !Hkeep, Hkey. cbv beta iota.
    rewrite (truthy_str_true _ Hkey_ne). reflexivity.
  - cbn [descriptor api_key]. split; [|exact Hkey].
    destruct (getenv (model_key p) st) as [saved|]; [|reflexivity].
    by destruct (Json.truthy_str saved).
Qed.

Lemma switch_round_trip_witness :
  let st := load_dotenv true
              (add_api_key (Answers "3" false "sk-test" "gpt-4o" false false)
                 google_env) in
  exists p cfg,
    table_get "3" LLM_PROVIDERS = Some p
    /\ get_active_provider
         (load_dotenv true (switch_provider (Answers "2" false "" "" false false) st))
       = Some cfg
    /\ name (descriptor cfg) = name p
    /\ getenv (env_key p) st = Some (api_key cfg).
Proof.
  intros st.
  refine (switch_round_trip (Answers "2" false "" "" false false) st "3"
            (reload_synced _) _ _).
  - intros H. discriminate H.
  - by vm_compute.
Defined.

(** ** Deleting, and what stays *)

(** The delete dialog carried through: what it removes. *)
Lemma delete_api_key_writes (a : answers) (st : env)
    (provider_id : string) (p : provider) :
  choice a <> "0" ->
  table_get (choice a) (_get_saved_providers st) = Some provider_id ->
  table_get provider_id LLM_PROVIDERS = Some p ->
  confirm a = true ->
  delete_api_key a st
  = let st2 := unset_key (model_key p) (unset_key (env_key p) st) in
    if bool_decide (Some provider_id = getenv "ACTIVE_PROVIDER" st)
    then unset_key "ACTIVE_PROVIDER_NAME" (unset_key "ACTIVE_PROVIDER" st2)
    else st2.
Proof.
  intros Hchoice Hsaved Hp Hconfirm. unfold delete_api_key.
  destruct (_get_saved_providers st); [discriminate Hsaved|].
  by rewrite (proj2 (String.eqb_neq _ _) Hchoice), Hsaved, Hp, Hconfirm.
Qed.

Lemma getenv_start (k : string) (lines : list (string * string)) :
  getenv k (start ∅ lines) = last_binding k lines.
Proof.
  unfold start. rewrite getenv_load. unfold getenv. cbn [environ dotenv_file].
  by rewrite lookup_empty.
Qed.

(** X16: after a provider of the menu is deleted with confirmation, a
    process that starts on the file with nothing inherited finds
    neither its key nor its model, does not list it in the menu of
    saved providers, and, when it was the active provider, has no
    active provider. *)
Theorem deleted_provider_gone_after_restart (a : answers) (st : env)
    (provider_id : string) (p : provider) :
  choice a <> "0" ->
  table_get (choice a) (_get_saved_providers st) = Some provider_id ->
  table_get provider_id LLM_PROVIDERS = Some p ->
  confirm a = true ->
  let fresh := start ∅ (dotenv_file (delete_api_key a st)) in
  getenv (env_key p) fresh = None
  /\ getenv (model_key p) fresh = None
  /\ (forall number, table_get number (_get_saved_providers fresh) <> Some provider_id)
  /\ (getenv "ACTIVE_PROVIDER" st = Some provider_id ->
      get_active_provider fresh = None).
Proof.
  intros Hchoice Hsaved Hp Hconfirm fresh.
  assert (Hlines : no_line (env_key p) (dotenv_file (delete_api_key a st))
                   /\ no_line (model_key p) (dotenv_file (delete_api_key a st))).
  { rewrite (delete_api_key_writes a st provider_id p) by assumption. cbv zeta.
    destruct (bool_decide _); cbn [unset_key dotenv_file]; split;
      repeat first [ apply unset_key_lines_gone | apply unset_key_lines_stays_gone ]. }
  destruct Hlines as [Hkey Hmodel].
  assert (Hgone : getenv (env_key p) fresh = None).
  { unfold fresh. rewrite getenv_start. by apply last_binding_no_line. }
  split; [exact Hgone|]. split; [|split].
  - unfold fresh. rewrite getenv_start. by apply last_binding_no_line.
  - intros number Hlisted.
    destruct (saved_providers_sound _ _ _ Hlisted) as (p' & Hp' & Hset).
    rewrite Hp in Hp'. injection Hp' as <-.
    rewrite Hgone in Hset. discriminate Hset.
  - intros Hactive.
    by destruct (deleted_provider_survives a st provider_id p).
Qed.

Lemma deleted_provider_gone_after_restart_witness :
  let fresh := start ∅ (dotenv_file (delete_api_key pick_first google_env)) in
  getenv "GOOGLE_API_KEY" fresh = None
  /\ get_active_provider fresh = None.
Proof.
  intros fresh.
  assert (Hzero : choice pick_first <> "0") by (intros H; discriminate H).
  destruct (deleted_provider_gone_after_restart pick_first google_env "1"
              (Provider "Google (Gemini)" "GOOGLE_API_KEY"
                 "https://generativelanguage.googleapis.com/v1beta/models/"
                 "gemini-2.5-pro")
              Hzero ltac:(by vm_compute) eq_refl eq_refl)
    as (Hkey & _ & _ & Hactive).
  split; [exact Hkey|]. apply Hactive. by vm_compute.
Defined.

(** X17: deleting a provider removes its own two variables from the
    file and nothing else: every other variable keeps the value that
    the file gave it, and so do the two markers when the deleted
    provider is not the active one. *)
Theorem delete_keeps_other_lines (a : answers) (st : env)
    (provider_id : string) (p : provider) (k : string) :
  choice a <> "0" ->
  table_get (choice a) (_get_saved_providers st) = Some provider_id ->
  table_get provider_id LLM_PROVIDERS = Some p ->
  confirm a = true ->
  k <> env_key p -> k <> model_key p ->
  (getenv "ACTIVE_PROVIDER" st = Some provider_id ->
   k <> "ACTIVE_PROVIDER" /\ k <> "ACTIVE_PROVIDER_NAME") ->
  last_binding k (dotenv_file (delete_api_key a st))
  = last_binding k (dotenv_file st).
Proof.
  intros Hchoice Hsaved Hp Hconfirm Hkey Hmodel Hmarkers.
  rewrite (delete_api_key_writes a st provider_id p) by assumption. cbv zeta.
  case_bool_decide as Hactive; cbn [unset_key dotenv_file];
    rewrite !last_binding_unset.
  - destruct (Hmarkers (eq_sym Hactive)) as [Hk1 Hk2].
    by rewrite (proj2 (String.eqb_neq _ _) Hk1), (proj2 (String.eqb_neq _ _) Hk2),
         (proj2 (String.eqb_neq _ _) Hkey), (proj2 (String.eqb_neq _ _) Hmodel).
  - by rewrite (proj2 (String.eqb_neq _ _) Hkey), (proj2 (String.eqb_neq _ _) Hmodel).
Qed.

Lemma delete_keeps_other_lines_witness :
  let st := load_dotenv true
              (add_api_key (Answers "3" false "sk-test" "" false false) google_env) in
  last_binding "ACTIVE_PROVIDER"
    (dotenv_file (delete_api_key (Answers "2" false "" "" false true) st))
  = Some "1".
Proof.
  intros st.
  rewrite (delete_keeps_other_lines (Answers "2" false "" "" false true) st "3"
             (Provider "OpenAI" "OPENAI_API_KEY"
                "https://api.openai.com/v1/chat/completions" "gpt-3.5-turbo")
             "ACTIVE_PROVIDER").
  - reflexivity.
  - intros H. discriminate H.
  - by vm_compute.
  - reflexivity.
  - reflexivity.
  - intros H. discriminate H.
  - intros H. vm_compute in H. discriminate H.
  - intros H. vm_compute in H. discriminate H.
Defined.

(** X18: the add dialog writes the key and the model of the provider
    that was picked, the switch dialog nothing of a provider; the two
    markers are written only by a switch or by an add dialog in which
    the user makes the provider the active one.  Every other variable
    keeps the value that the file gave it. *)
Theorem add_and_switch_keep_other_lines (a : answers) (st : env) (k : string) :
  (forall p, table_get (choice a) LLM_PROVIDERS = Some p ->
             k <> env_key p /\ k <> model_key p) ->
  (make_active a = true -> k <> "ACTIVE_PROVIDER" /\ k <> "ACTIVE_PROVIDER_NAME") ->
  last_binding k (dotenv_file (add_api_key a st)) = last_binding k (dotenv_file st)
  /\ (k <> "ACTIVE_PROVIDER" -> k <> "ACTIVE_PROVIDER_NAME" ->
      last_binding k (dotenv_file (switch_provider a st))
      = last_binding k (dotenv_file st)).
Proof.
  intros Hprovider Hmarkers. split.
  - unfold add_api_key.
    destruct (String.eqb (choice a) "0"); [reflexivity|].
    destruct (table_get (choice a) LLM_PROVIDERS) as [p|]; [|reflexivity].
    destruct (Hprovider p eq_refl) as [Hkey Hmodel].
    destruct (truthy (getenv (env_key p) st) && negb (overwrite a)); [reflexivity|].
    destruct (negb (Json.truthy_str (PyStr.strip (typed_key a)))); [reflexivity|].
    destruct (String.eqb (PyStr.lower _) "cancel"); [reflexivity|].
    destruct (make_active a); cbn [set_key dotenv_file]; rewrite !last_binding_set.
    + destruct (Hmarkers eq_refl) as [Hk1 Hk2].
      by rewrite (proj2 (String.eqb_neq _ _) Hk1), (proj2 (String.eqb_neq _ _) Hk2),
           (proj2 (String.eqb_neq _ _) Hkey), (proj2 (String.eqb_neq _ _) Hmodel).
    + by rewrite (proj2 (String.eqb_neq _ _) Hkey), (proj2 (String.eqb_neq _ _) Hmodel).
  - intros Hk1 Hk2. unfold switch_provider.
    destruct (_get_saved_providers st) as [|entry saved]; [reflexivity|].
    destruct (String.eqb (choice a) "0"); [reflexivity|].
    destruct (table_get (choice a) (entry :: saved)) as [provider_id|]; [|reflexivity].
    destruct (table_get provider_id LLM_PROVIDERS) as [p|]; [|reflexivity].
    cbn [set_key dotenv_file]. rewrite !last_binding_set.
    by rewrite (proj2 (String.eqb_neq _ _) Hk1), (proj2 (String.eqb_neq _ _) Hk2).
Qed.

Lemma add_and_switch_keep_other_lines_witness :
  last_binding "ACTIVE_PROVIDER"
    (dotenv_file (add_api_key (Answers "3" false "sk-test" "" false false) google_env))
  = Some "1".
Proof.
  assert (Hprovider : forall p,
            table_get "3" LLM_PROVIDERS = Some p ->
            "ACTIVE_PROVIDER" <> env_key p /\ "ACTIVE_PROVIDER" <> model_key p).
  { intros p [= <-]. split; intros H; vm_compute in H; discriminate H. }
  assert (Hmarkers : false = true ->
            "ACTIVE_PROVIDER" <> "ACTIVE_PROVIDER"
            /\ "ACTIVE_PROVIDER" <> "ACTIVE_PROVIDER_NAME").
  { intros H. discriminate H. }
  rewrite (proj1 (add_and_switch_keep_other_lines
                    (Answers "3" false "sk-test" "" false false) google_env
                    "ACTIVE_PROVIDER" Hprovider Hmarkers)).
  reflexivity.
Defined.

End EnvManagerFacts.

(* ===================================================================== *)
(** * Facts about termchat.py *)
(* ===================================================================== *)

Module TermchatFacts.
Import Json Chat Termchat Spec.

(** ** Commands and canned replies *)

Lemma startswith_slash (user_input : string) :
  PyStr.startswith user_input "/" = true ->
  exists rest, user_input = String "/" rest.
Proof.
  destruct user_input as [|a rest]; [discriminate|].
  unfold PyStr.startswith. intros H%String.prefix_correct.
  cbn [String.length String.substring] in H.
  injection H as -> _. eauto.
Qed.

Lemma strip_slash (s : string) :
  exists rest, PyStr.strip (String "/" s) = String "/" rest.
Proof.
  unfold PyStr.strip, PyStr.lstrip.
  change (PyStr.lstrip_from 0 (String "/" s)) with (String "/" s).
  change (PyStr.rstrip (String "/" s)) with (String "/" (PyStr.rstrip s)).
  eauto.
Qed.

(** A line that is a command is not a canned phrase. *)
Lemma command_is_not_canned (user_input : string) :
  PyStr.startswith user_input "/" = true ->
  EnvManager.table_get (PyStr.strip (PyStr.lower user_input))
    EnvManager.CUSTOM_REPLIES = None.
Proof.
  intros [rest ->]%startswith_slash.
  change (PyStr.lower (String "/" rest)) with (String "/" (PyStr.lower rest)).
  destruct (strip_slash (PyStr.lower rest)) as [rest' ->].
  reflexivity.
Qed.

(** C9: a line whose stripped lower-case form is a key of
    [CUSTOM_REPLIES] is answered with the reply of the table; the
    iteration prints it and posts nothing, whatever the network would
    do, and leaves the history, like everything else in the state, as
    it was: neither the line nor the reply is appended. *)
Theorem canned_reply_short_circuits
    (http_post : request -> exn + response) (py_repr : json -> string)
    (user_input : string) (a : EnvManager.answers) (pick : nat)
    (st : state) (reply : string) :
  EnvManager.table_get (PyStr.strip (PyStr.lower user_input))
    EnvManager.CUSTOM_REPLIES = Some reply ->
  exists t st',
    iteration http_post py_repr user_input a pick st = Some (t, Continue, st')
    /\ t = [Shown "AI Assistant"; Answered reply]
    /\ (forall r, ~ In (Posted r) t)
    /\ chat_history st' = chat_history st
    /\ st' = st.
Proof.
  intros Hcanned. exists [Shown "AI Assistant"; Answered reply], st.
  split; [|split; [reflexivity|split; [|split; reflexivity]]].
  - unfold iteration.
    destruct (PyStr.startswith user_input "/") eqn:Hcommand.
    + rewrite (command_is_not_canned _ Hcommand) in Hcanned. discriminate Hcanned.
    + by rewrite Hcanned.
  - intros r [H|[H|[]]]; discriminate H.
Qed.

Lemma canned_reply_short_circuits_witness :
  let st := State (Some openai_client) [Message "user" "hi there"] google_env in
  iteration (always (Response 200 (inr JNull))) sample_repr "  Thank You " pick_first 0 st
  = Some ([Shown "AI Assistant"; Answered "Koi baat nahi! Khushi hui madad karke! 😊"],
          Continue, st).
Proof.
  intros st.
  destruct (canned_reply_short_circuits (always (Response 200 (inr JNull)))
              sample_repr "  Thank You " pick_first 0 st
              "Koi baat nahi! Khushi hui madad karke! 😊" eq_refl)
    as (t & st' & Hrun & -> & _ & _ & ->).
  exact Hrun.
Defined.

(** ** A turn that fails *)





(** ** A turn that succeeds *)

(** X21: a turn that succeeds: when the line goes to the provider and
    [get_response], called on the history with the line appended as a
    user message, returns a text, the iteration shows that text and
    leaves the history with exactly two new entries, the user message
    and the assistant's reply, in that order. *)
Theorem successful_turn_appends_pair
    (http_post : request -> exn + response) (py_repr : json -> string)
    (user_input : string) (a : EnvManager.answers) (pick : nat)
    (st : state) (c : Openrouter.client) (reply : string) :
  PyStr.startswith user_input "/" = false ->
  EnvManager.table_get (PyStr.strip (PyStr.lower user_input))
    EnvManager.CUSTOM_REPLIES = None ->
  client st = Some c ->
  outcome (Openrouter.get_response http_post py_repr c
             (chat_history st ++ [Message "user" user_input])) = inr (JStr reply) ->
  exists t,
    iteration http_post py_repr user_input a pick st
    = Some (t, Continue,
            State (client st)
              (chat_history st
                 ++ [Message "user" user_input; Message "assistant" reply])
              (env_manager st))
    /\ In (Answered reply) t.
Proof.
  intros Hcommand Hcanned Hclient Hreply.
  unfold iteration, ask. rewrite Hcommand, Hcanned, Hclient.
  unfold outcome in Hreply.
  destruct (Openrouter.get_response http_post py_repr c
              (chat_history st ++ [Message "user" user_input])) as [t0 out].
  cbn [snd] in Hreply. subst out. cbn.
  eexists. split.
  - by rewrite <- app_assoc.
  - apply in_or_app. right. cbn. auto.
Qed.

Lemma successful_turn_appends_pair_witness :
  let data := JObj [("content", JList [JObj [("type", JStr "text");
                                              ("text", JStr "Hello.")]])] in
  let c := client_of (EnvManager.Provider "Anthropic (Claude)" "ANTHROPIC_API_KEY"
                        "https://api.anthropic.com/v1/messages"
                        "claude-3-sonnet-20240229") "sk-ant-test" in
  let st := State (Some c) [] google_env in
  exists t,
    iteration (always (Response 200 (inr data))) sample_repr "Say hello" pick_first 0 st
    = Some (t, Continue,
            State (Some c)
              [Message "user" "Say hello"; Message "assistant" "Hello."] google_env)
    /\ In (Answered "Hello.") t.
Proof.
  intros data c st.
  exact (successful_turn_appends_pair (always (Response 200 (inr data))) sample_repr
           "Say hello" pick_first 0 st c "Hello." eq_refl eq_refl eq_refl eq_refl).
Defined.

Set Warnings "-clear-no-such-hyp".

(** ** The end of the loop *)

(** X23: the loop ends on one line only: an iteration reaches [break]
    exactly when the line starts with "/" and its first word is [/exit]
    in any mix of cases, whatever follows the word.  No other line,
    [/quit], "exit" and "bye" among them, ends the loop at [break]. *)
Theorem loop_ends_on_exit_only
    (http_post : request -> exn + response) (py_repr : json -> string)
    (user_input : string) (a : EnvManager.answers) (pick : nat) (st : state) :
  (exists t st',
      iteration http_post py_repr user_input a pick st = Some (t, Break, st'))
  <-> PyStr.startswith user_input "/" = true
      /\ command_word user_input = Some "/exit".
Proof.
  unfold iteration. split.
  - intros (t & st' & Hrun). revert Hrun.
    destruct (PyStr.startswith user_input "/").
    + destruct (Commands.handle_command _ _ _ _ _)
        as [t0 [e|[[answer h'] env']]] eqn:Hcommand; [discriminate|].
      destruct (CommandsFacts.handle_command_effects _ _ _ _ _ _ _ _ _ Hcommand)
        as (Hexit & _).
      destruct answer; [| |]; try (intros [= <- <-]; naive_solver); try discriminate.
      destruct (initialize_client _) as [t' [new_client|]]; discriminate.
    + destruct (EnvManager.table_get _ EnvManager.CUSTOM_REPLIES); [discriminate|].
      destruct (client st) as [c|]; [|discriminate].
      destruct (ask _ _ _ _ _) as [[t' h']|]; discriminate.
  - intros [-> Hword]. unfold command_word in Hword.
    unfold Commands.handle_command.
    destruct (PyStr.first_word user_input) as [w|]; [|discriminate Hword].
    cbn in Hword. injection Hword as ->. cbn. eauto.
Qed.

Lemma loop_ends_on_exit_only_witness :
  let nbsp := String (ascii_of_nat 194) (String (ascii_of_nat 160) "") in
  (exists t st',
      iteration (always (Response 200 (inr JNull))) sample_repr
        ("/Exit" +:+ nbsp +:+ "now") pick_first 0
        (State (Some openai_client) [] google_env) = Some (t, Break, st'))
  /\ ~ (exists t st',
          iteration (always (Response 200 (inr JNull))) sample_repr "/quit"
            pick_first 0 (State (Some openai_client) [] google_env)
          = Some (t, Break, st')).
Proof.
  intros nbsp. split.
  - apply (proj2 (loop_ends_on_exit_only (always (Response 200 (inr JNull)))
                    sample_repr ("/Exit" +:+ nbsp +:+ "now") pick_first 0
                    (State (Some openai_client) [] google_env))).
    split; reflexivity.
  - intros Hbreak.
    destruct (proj1 (loop_ends_on_exit_only (always (Response 200 (inr JNull)))
                       sample_repr "/quit" pick_first 0
                       (State (Some openai_client) [] google_env)) Hbreak)
      as [_ Hword].
    vm_compute in Hword. discriminate Hword.
Defined.

(** ** Before the loop *)

Lemma unmentioned_load (override : bool) (k : string) (st : EnvManager.env) :
  unmentioned k st -> unmentioned k (EnvManager.load_dotenv override st).
Proof.
  intros [Henv Hfile]. split; [|exact Hfile].
  by rewrite EnvManagerFacts.load_dotenv_keeps.
Qed.

Lemma getenv_fresh_file (k : string) (lines : list (string * string))
    (st : EnvManager.env) :
  EnvManager.getenv k st = None ->
  EnvManager.getenv k
    (EnvManager.load_dotenv false (EnvManager.Env lines (EnvManager.environ st)))
  = last_binding k lines.
Proof.
  intros Hnone. rewrite EnvManagerFacts.getenv_load.
  unfold EnvManager.getenv in *. cbn [EnvManager.environ EnvManager.dotenv_file].
  by rewrite Hnone.
Qed.

(** The setup carried through, and the environment loaded after it. *)
Lemma setup_then_load (a : EnvManager.answers) (st : EnvManager.env)
    (p : EnvManager.provider) :
  EnvManager.table_get (EnvManager.choice a) EnvManager.LLM_PROVIDERS = Some p ->
  PyStr.strip (EnvManager.typed_key a) <> "" ->
  PyStr.lower (saved_model a p) <> "cancel" ->
  unmentioned (EnvManager.env_key p) st ->
  unmentioned (EnvManager.model_key p) st ->
  unmentioned "ACTIVE_PROVIDER" st ->
  exists st',
    EnvManager.setup_first_run a st = (true, st')
    /\ EnvManager.get_active_provider (EnvManager.load_dotenv false st')
       = Some (EnvManager.ProviderConfig
                 (EnvManager.with_model p (saved_model a p))
                 (EnvManager.typed_key a)).
Proof.
  intros Hp Hkey Hcancel [Hk_env Hk_file] [Hm_env Hm_file] [Ha_env Ha_file].
  destruct (TableFacts.provider_table_keys _ _ Hp)
    as ((Hkm & Hka & Hkn & Hma & Hmn) & Hdefault & Hid).
  assert (Hmodel : saved_model a p <> "").
  { unfold saved_model. by destruct (String.eqb_spec (EnvManager.typed_model a) ""). }
  assert (Htyped : EnvManager.typed_key a <> "").
  { intros Hempty. rewrite Hempty in Hkey. by apply Hkey. }
  eexists. split.
  - unfold EnvManager.setup_first_run.
    destruct (String.eqb_spec (EnvManager.choice a) "0") as [Hzero|_].
    { rewrite Hzero, EnvManagerFacts.table_get_zero in Hp. discriminate Hp. }
    rewrite Hp, (EnvManagerFacts.truthy_str_true _ Hkey). cbn [negb].
    fold (saved_model a p).
    rewrite (proj2 (String.eqb_neq _ _) Hcancel). reflexivity.
  - unfold EnvManager.get_active_provider, EnvManager.set_key.
    cbn [EnvManager.environ EnvManager.dotenv_file].
    rewrite (getenv_fresh_file "ACTIVE_PROVIDER" _ st Ha_env).
    rewrite !EnvManagerFacts.last_binding_set.
    change (String.eqb "ACTIVE_PROVIDER" "ACTIVE_PROVIDER_NAME") with false.
    change (String.eqb "ACTIVE_PROVIDER" "ACTIVE_PROVIDER") with true.
    cbv beta iota. rewrite (EnvManagerFacts.truthy_str_true _ Hid). cbn [negb].
    rewrite Hp. cbv beta iota.
    rewrite (getenv_fresh_file (EnvManager.model_key p) _ st Hm_env),
      (getenv_fresh_file (EnvManager.env_key p) _ st Hk_env).
    rewrite !EnvManagerFacts.last_binding_set.
    rewrite !String.eqb_refl,
      (proj2 (String.eqb_neq _ _) Hkn), (proj2 (String.eqb_neq _ _) Hka),
      (proj2 (String.eqb_neq _ _) Hkm),
      (proj2 (String.eqb_neq _ _) Hmn), (proj2 (String.eqb_neq _ _) Hma).
    cbv beta iota.
    by rewrite (EnvManagerFacts.truthy_str_true _ Htyped),
         (EnvManagerFacts.truthy_str_true _ Hmodel).
Qed.

(** The first run in the model. *)
Lemma startup_first_run
    (file_exists : bool) (a : EnvManager.answers) (st : EnvManager.env)
    (p : EnvManager.provider) :
  EnvManager.table_get (EnvManager.choice a) EnvManager.LLM_PROVIDERS = Some p ->
  PyStr.strip (EnvManager.typed_key a) <> "" ->
  PyStr.lower (saved_model a p) <> "cancel" ->
  unmentioned (EnvManager.env_key p) st ->
  unmentioned (EnvManager.model_key p) st ->
  unmentioned "ACTIVE_PROVIDER" st ->
  exists t env,
    startup file_exists a st
    = (t, Some (State
                  (Some (client_of (EnvManager.with_model p (saved_model a p))
                           (EnvManager.typed_key a)))
                  [] env)).
Proof.
  intros Hp Hkey Hcancel Hk Hm Ha.
  set (st1 := EnvManager.init file_exists st).
  assert (H1 : unmentioned (EnvManager.env_key p) st1
               /\ unmentioned (EnvManager.model_key p) st1
               /\ unmentioned "ACTIVE_PROVIDER" st1).
  { unfold st1, EnvManager.init.
    destruct file_exists; auto using unmentioned_load. }
  destruct H1 as (Hk1 & Hm1 & Ha1).
  assert (Hcheck : exists st2,
            EnvManager.check_env_exists file_exists st1 = (false, st2)
            /\ unmentioned (EnvManager.env_key p) st2
            /\ unmentioned (EnvManager.model_key p) st2
            /\ unmentioned "ACTIVE_PROVIDER" st2).
  { unfold EnvManager.check_env_exists. destruct file_exists; cbn [negb].
    - exists (EnvManager.load_dotenv false st1).
      pose proof (unmentioned_load false _ _ Ha1) as Ha2.
      split; [|auto using unmentioned_load].
      unfold EnvManager.get_active_provider. rewrite (proj1 Ha2).
      rewrite bool_decide_eq_false_2; [reflexivity|]. by intros [cfg Hcfg].
    - exists st1. auto. }
  destruct Hcheck as (st2 & Hcheck & Hk2 & Hm2 & Ha2).
  destruct (setup_then_load a st2 p Hp Hkey Hcancel Hk2 Hm2 Ha2)
    as (st3 & Hsetup & Hactive).
  unfold startup. fold st1. rewrite Hcheck, Hsetup.
  unfold initialize_client. rewrite Hactive.
  eexists _, _. reflexivity.
Qed.

(** X24: a first run.  When neither the environment nor the .env file
    mentions the marker ACTIVE_PROVIDER or the two variables of the
    provider that the user picks, and the setup is carried through (a
    provider of the table, a key that is not blank, a model name other
    than "cancel"), [main] does not exit: the loop starts with an empty
    history and a client for that provider, with the key that was typed
    and the model that was typed or, when none was typed, the default of
    the table.  This is said of a key that python-dotenv reads back as
    it was stored and of a model name that goes through the dialog as
    it is ([model_name_kept]): a model name with markup that rich
    rejects makes the setup answer False after it has written the file,
    and a value with a quote, a backslash or a [${NAME}] reference is
    read back as another value. *)
Theorem first_run_starts_the_chat
    (file_exists : bool) (a : EnvManager.answers) (st : EnvManager.env)
    (p : EnvManager.provider) :
  EnvManager.table_get (EnvManager.choice a) EnvManager.LLM_PROVIDERS = Some p ->
  PyStr.strip (EnvManager.typed_key a) <> "" ->
  stored_verbatim (EnvManager.typed_key a) = true ->
  PyStr.lower (saved_model a p) <> "cancel" ->
  model_name_kept (saved_model a p) ->
  unmentioned (EnvManager.env_key p) st ->
  unmentioned (EnvManager.model_key p) st ->
  unmentioned "ACTIVE_PROVIDER" st ->
  exists t env,
    startup file_exists a st
    = (t, Some (State
                  (Some (client_of (EnvManager.with_model p (saved_model a p))
                           (EnvManager.typed_key a)))
                  [] env)).
Proof.
  intros Hp Hkey _ Hcancel _ Hk Hm Ha. by apply startup_first_run.
Qed.

Lemma first_run_starts_the_chat_witness :
  exists t env,
    startup false (EnvManager.Answers "6" false "sk-deep" "" false false)
      (EnvManager.Env [] ∅)
    = (t, Some (State
                  (Some (client_of
                           (EnvManager.Provider "DeepSeek" "DEEPSEEK_API_KEY"
                              "https://api.deepseek.com/v1/chat/completions"
                              "deepseek-chat") "sk-deep"))
                  [] env)).
Proof.
  assert (Hfresh : forall k, unmentioned k (EnvManager.Env [] ∅)).
  { intros k. split; [apply lookup_empty | apply List.Forall_nil]. }
  refine (first_run_starts_the_chat false
            (EnvManager.Answers "6" false "sk-deep" "" false false)
            (EnvManager.Env [] ∅)
            (EnvManager.Provider "DeepSeek" "DEEPSEEK_API_KEY"
               "https://api.deepseek.com/v1/chat/completions" "deepseek-chat")
            eq_refl _ eq_refl _ _ (Hfresh _) (Hfresh _) (Hfresh _)).
  - intros H. vm_compute in H. discriminate H.
  - intros H. vm_compute in H. discriminate H.
  - split; [reflexivity|]. split; reflexivity.
Defined.

End TermchatFacts.
